(** * Floor-plan analysis pipeline (GEM-AI backend)

    A shallow embedding of

      - [web-app/backend/gem_ai/floorplan_model.py]: the room categories, the
        mask-to-rectangle extractor, the absorbing primary detection
        strategy and the process-wide model cache;
      - [web-app/backend/main.py]: the [/analyze] request handler, i.e. the
        two-tier detection orchestrator, the pixel-to-metric projection and
        the result record.

    Python exceptions are values of [exn]; code that prints, allocates
    objects or touches the module-level cache runs in the state-and-error
    monad [M]; libraries that are not part of the repository (OpenCV, torch,
    the hybrid detector, the scale calibrator, the exporters) are records of
    operations the embedded code is parameterised by. *)

From Stdlib Require Import ZArith QArith Qround String List Lia.
From Stdlib Require Import PrimFloat FloatOps SpecFloat FloatAxioms DecimalString.
From stdpp Require Import base gmap strings list.

Set Warnings "-register-all,-inexact-float".

Local Open Scope list_scope.
Local Open Scope string_scope.
Local Open Scope Z_scope.

(* ===================================================================== *)
(** * Python runtime notions shared by both source files                 *)
(* ===================================================================== *)

Module Py.

(** Exceptions the code raises or catches.  [HTTPException] is FastAPI's;
    every other exception of the model is an instance of a subclass of
    Python's [Exception] (the class both [except Exception] handlers
    catch), with [str(e)] kept as [msg]. *)
Inductive exn : Type :=
| HTTPException (status_code : Z) (detail : string)
| Exception (kind : string) (msg : string).

Definition exn_str (e : exn) : string :=
  match e with
  | HTTPException _ detail => detail
  | Exception _ msg => msg
  end.

Definition is_HTTPException (e : exn) : bool :=
  match e with HTTPException _ _ => true | Exception _ _ => false end.

(** [except Exception]: matches every exception of the model. *)
Definition is_Exception (e : exn) : bool := true.

(** Outcome of a call: a value, or a raised exception. *)
Inductive result (A : Type) : Type :=
| Ok (a : A)
| Raise (e : exn).
Arguments Ok {A} a.
Arguments Raise {A} e.

Definition rbind {A B} (r : result A) (k : A -> result B) : result B :=
  match r with
  | Ok a => k a
  | Raise e => Raise e
  end.

(** Stateful code: a world [W] is threaded through; what was done before an
    exception was raised stays done. *)
Definition M (W A : Type) : Type := W -> result A * W.

Definition ret {W A} (a : A) : M W A := fun w => (Ok a, w).
Definition raise {W A} (e : exn) : M W A := fun w => (Raise e, w).
Definition lift {W A} (r : result A) : M W A := fun w => (r, w).

Definition bind {W A B} (m : M W A) (k : A -> M W B) : M W B :=
  fun w =>
    match m w with
    | (Ok a, w') => k a w'
    | (Raise e, w') => (Raise e, w')
    end.

(** [try: body / except <class> as e: handler e]; [catches e] says whether
    the clause's class matches. *)
Definition try_except {W A} (body : M W A) (catches : exn -> bool)
    (handler : exn -> M W A) : M W A :=
  fun w =>
    match body w with
    | (Ok a, w') => (Ok a, w')
    | (Raise e, w') => if catches e then handler e w' else (Raise e, w')
    end.

(** [for x in xs: acc = step acc x], stopping at the first exception. *)
Fixpoint rfor_each {A X} (step : A -> X -> result A) (xs : list X) (acc : A)
    : result A :=
  match xs with
  | [] => Ok acc
  | x :: xs' => rbind (step acc x) (rfor_each step xs')
  end.

(** ** Python floats

    What the projection needs of [float]: conversion of an [int] operand
    (which raises [OverflowError] beyond the double range), the test
    [b == 0.0] that makes [a / b] raise [ZeroDivisionError], and the
    quotient and product themselves. *)
Class PyFloat : Type := {
  num : Type;
  of_int : Z -> result num;
  is_zero : num -> bool;
  fdiv : num -> num -> num;
  fmul : num -> num -> num;
}.

(** What the export stage and the result record need on top: [+], [<],
    [round(x, ndigits)] and float literals [m * 10^e]. *)
Class PyFloatOrd (F : PyFloat) : Type := {
  fadd : num -> num -> num;
  flt : num -> num -> bool;
  round_ndigits : num -> Z -> num;
  literal : Z -> Z -> num;
}.

Section Arith.
Context {F : PyFloat}.

(** [a / b] on two floats. *)
Definition truediv (a b : num) : result num :=
  if is_zero b then Raise (Exception "ZeroDivisionError" "float division by zero")
  else Ok (fdiv a b).

(** [n / b] with [n] an [int] and [b] a [float]: the [int] is converted
    first, then the divisor is tested. *)
Definition int_truediv (n : Z) (b : num) : result num :=
  rbind (of_int n) (fun a => truediv a b).

Context {O : PyFloatOrd F}.

(** [max(a, b)] and [min(a, b)] keep the first argument unless the second
    is strictly better. *)
Definition py_max (a b : num) : num := if flt a b then b else a.
Definition py_min (a b : num) : num := if flt b a then b else a.

(** [sum(xs)]: left fold of [+] from [0]. *)
Definition py_sum (xs : list num) : num := fold_left fadd xs (literal 0 0).

End Arith.

(** Two arithmetics implement the interface.  Exact rationals are the
    instance found by default; binary64 is always named explicitly. *)

(** *** Exact rationals: the idealised reading of [float]. *)

Definition Q_round_half_even (q : Q) : Z :=
  let fl := Qfloor q in
  let twice := Qfloor (2 * q)%Q in
  if Qeq_bool (inject_Z twice) (2 * q)%Q && Z.odd twice
  then (if Z.even fl then fl else fl + 1)
  else Qfloor (q + (1 # 2))%Q.

Definition Q_pow10 (e : Z) : Q :=
  if 0 <=? e then inject_Z (10 ^ e) else (1 # Z.to_pos (10 ^ (- e)))%Q.

#[export] Instance QFloat : PyFloat := {|
  num := Q;
  of_int := fun z => Ok (inject_Z z);
  is_zero := fun q => Qeq_bool q 0;
  fdiv := Qdiv;
  fmul := Qmult;
|}.

(** [round_ndigits] rounds the exact number, half to even.  Python's
    [round] on a double rounds the double's own binary value, so the two
    can differ where a decimal tie is not a double. *)
#[export] Instance QFloatOrd : PyFloatOrd QFloat := {|
  fadd := Qplus;
  flt := fun a b => negb (Qle_bool b a);
  round_ndigits := fun q nd =>
    (inject_Z (Q_round_half_even (q * Q_pow10 nd)) / Q_pow10 nd)%Q;
  literal := fun m e => (inject_Z m * Q_pow10 e)%Q;
|}.

(** *** IEEE binary64: what CPython's [float] is. *)

(** [float(z)]: round to nearest, ties to even. *)
Definition float_of_Z (z : Z) : float :=
  SF2Prim (binary_normalize prec emax z 0 false).

Definition Binary64 : PyFloat := {|
  num := float;
  of_int := fun z =>
    let f := float_of_Z z in
    if PrimFloat.is_infinity f
    then Raise (Exception "OverflowError" "int too large to convert to float")
    else Ok f;
  is_zero := fun f => PrimFloat.eqb f PrimFloat.zero;
  fdiv := PrimFloat.div;
  fmul := PrimFloat.mul;
|}.

(** ** Formatting helpers for f-strings. *)

Definition str_bool (b : bool) : string := if b then "True" else "False".

Definition str_nat (n : nat) : string := NilZero.string_of_uint (Nat.to_uint n).

Definition str_Z (z : Z) : string := NilZero.string_of_int (Z.to_int z).

(** [f"{i:03d}"] *)
Definition fmt_03d (n : nat) : string :=
  let s := str_nat n in
  match String.length s with
  | 1%nat => "00" ++ s
  | 2%nat => "0" ++ s
  | _ => s
  end.

End Py.

Export Py.

Declare Scope py_scope.
Notation "'let!' x ':=' m 'in' k" := (bind m (fun x => k))
  (at level 10, x name, m at level 100, k at level 200) : py_scope.
Notation "'run!' m 'in' k" := (bind m (fun _ => k))
  (at level 10, m at level 100, k at level 200) : py_scope.
Notation "'let?' x ':=' r 'in' k" := (rbind r (fun x => k))
  (at level 10, x name, r at level 100, k at level 200) : py_scope.
Local Open Scope py_scope.

(** Pixel-space room rectangle: the dict [{"x", "y", "w", "h",
    "class_name"}] built by the extractor, with fields [px], [py], [pw],
    [ph] for the keys "x", "y", "w", "h".  Origin top-left, y downward.
    Both detectors are taken to return dicts of this shape, so the
    handler's [r["x"]] ... [r["h"]] never raise [KeyError]. *)
Record PixelRoom : Type := {
  px : Z;
  py : Z;
  pw : Z;
  ph : Z;
  class_name : string;
}.

(** Images as arrays of rows: a BGR colour image, a single-channel image
    (grayscale, or a mask of class indices). *)
Definition Image : Type := list (list (Z * Z * Z)).
Definition GrayImage : Type := list (list Z).
Definition Mask : Type := list (list Z).

(* ===================================================================== *)
(** * gem_ai/floorplan_model.py                                          *)
(* ===================================================================== *)

Module FloorplanModel.

Definition ROOM_CATEGORIES : gmap Z string :=
  list_to_map
    [ (0, "background"); (1, "outdoor"); (2, "wall"); (3, "kitchen");
      (4, "living_room"); (5, "bedroom"); (6, "bathroom"); (7, "hallway");
      (8, "storage"); (9, "garage"); (10, "other") ].

Definition NUM_CLASSES : Z := Z.of_nat (size ROOM_CATEGORIES).

(** [range(n)] *)
Definition range (n : Z) : list Z := seqZ 0 n.

(** The parts of OpenCV the extractor calls.  A contour is the list of its
    boundary points; [contourArea] is a double, exact on the half-integers
    a polygon with integer vertices has, and is taken in [Q], as is
    [min_area] (no NaN). *)
Definition Contour : Type := list (Z * Z).

Record OpenCV : Type := {
  findContours : Mask -> result (list Contour);
  contourArea : Contour -> Q;
  boundingRect : Contour -> Z * Z * Z * Z;
}.

(** [a >= b] on numbers. *)
Definition ge (a b : Q) : bool := Qle_bool b a.

(** The torch runtime and the file system as the model class sees them.
    The module can be imported only when [import torch] succeeded (the
    class statements at lines 36-86 need [nn]); [TORCH_AVAILABLE] is
    [False] in a running module when a later import of the [try] block,
    [torchvision], failed.  Every call into torch that builds, fills or
    moves tensors may raise. *)
Record Torch : Type := {
  TORCH_AVAILABLE : bool;
  TORCH_IMPORT_ERROR : string;
  cuda_is_available : bool;
  get_model_cache_dir : string;
  path_exists : string -> bool;
  (** [ResNetUNet(num_classes=NUM_CLASSES, pretrained=False)] (line 94) *)
  ResNetUNet : result unit;
  (** [model.load_state_dict(torch.load(path, map_location=device))] *)
  load_state_dict : string -> string -> result unit;
  (** [self.model.to(device)], then [self.model.eval()] (lines 102-103) *)
  model_to : string -> result unit;
  (** [torch.tensor([...]).view(1, 3, 1, 1).to(device)] (lines 104, 105) *)
  tensor_to : string -> result unit;
}.

(** An instance of [FloorPlanSegmentationModel].  [obj_id] is the object's
    identity ([id(self)]); [weights] is the file the state dict was loaded
    from, [None] when the network kept its random initialisation. *)
Record FloorPlanSegmentationModel : Type := {
  obj_id : nat;
  device : string;
  image_size : Z;
  weights : option string;
}.

(** The interpreter state the module touches: the module-level cache, the
    allocator of object identities, and what was printed. *)
Record World : Type := {
  _floorplan_model_cache : gmap string FloorPlanSegmentationModel;
  next_obj : nat;
  stdout : list string;
}.

Definition print (line : string) : M World unit :=
  fun w => (Ok tt, {| _floorplan_model_cache := _floorplan_model_cache w;
                      next_obj := next_obj w;
                      stdout := (stdout w ++ [line])%list |}).

Definition new_object : M World nat :=
  fun w => (Ok (next_obj w),
            {| _floorplan_model_cache := _floorplan_model_cache w;
               next_obj := S (next_obj w);
               stdout := stdout w |}).

Definition cache_get (key : string) : M World (option FloorPlanSegmentationModel) :=
  fun w => (Ok (_floorplan_model_cache w !! key), w).

Definition cache_set (key : string) (m : FloorPlanSegmentationModel) : M World unit :=
  fun w => (Ok tt, {| _floorplan_model_cache := <[key := m]> (_floorplan_model_cache w);
                      next_obj := next_obj w;
                      stdout := stdout w |}).

Section Model.
Variable torch : Torch.
Variable cv2 : OpenCV.
(** [FloorPlanSegmentationModel.predict]: resize, normalise, run the
    network, arg-max, resize back.  All of it is tensor arithmetic of torch
    and OpenCV; it is taken as one operation that may raise. *)
Variable predict : FloorPlanSegmentationModel -> Image -> result Mask.

(** [device or ("cuda" if torch.cuda.is_available() else "cpu")]: [None]
    and the empty string are falsy. *)
Definition pick_device (device : option string) : string :=
  let auto := if cuda_is_available torch then "cuda" else "cpu" in
  match device with
  | None => auto
  | Some d => if String.eqb d "" then auto else d
  end.

(** [model_path], or [get_model_cache_dir() / "best_model.pt"] when it is
    [None] (lines 95-96). *)
Definition weights_path (model_path : option string) : string :=
  match model_path with
  | None => get_model_cache_dir torch ++ "/best_model.pt"
  | Some p => p
  end.

(** [FloorPlanSegmentationModel.__init__(model_path=None, device=None,
    image_size=512)], lines 89-106.  The object exists, with its identity,
    before the body runs. *)
Definition __init__ (model_path device : option string) (image_size : Z)
    : M World FloorPlanSegmentationModel :=
  if negb (TORCH_AVAILABLE torch) then
    raise (Exception "RuntimeError"
             ("PyTorch not available: " ++ TORCH_IMPORT_ERROR torch))
  else
    let! self := new_object in
    let dev := pick_device device in
    run! lift (ResNetUNet torch) in
    let path := weights_path model_path in
    let! loaded :=
      (if path_exists torch path then
         run! print ("[FloorPlanModel] Loading weights from " ++ path) in
         run! lift (load_state_dict torch path dev) in
         ret (Some path)
       else
         run! print ("[FloorPlanModel] WARNING: No weights at " ++ path) in
         ret None) in
    run! lift (model_to torch dev) in
    run! lift (tensor_to torch dev) in
    run! lift (tensor_to torch dev) in
    run! print ("[FloorPlanModel] Initialized on " ++ dev) in
    ret (Build_FloorPlanSegmentationModel self dev image_size loaded).

(** [(mask == class_id).astype(np.uint8) * 255] *)
Definition class_mask (mask : Mask) (class_id : Z) : Mask :=
  map (map (fun v => if v =? class_id then 255 else 0)) mask.

(** The dict appended for a contour of class [class_id] (lines 127-129). *)
Definition room_of (class_id : Z) (contour : Contour) : PixelRoom :=
  let '(x, y, w, h) := boundingRect cv2 contour in
  {| px := x; py := y; pw := w; ph := h;
     class_name := default "other" (ROOM_CATEGORIES !! class_id) |}.

(** Body of the inner loop of [extract_rooms_from_mask]. *)
Definition extract_contour (min_area : Q) (class_id : Z)
    (rooms : list PixelRoom) (contour : Contour) : list PixelRoom :=
  let area := contourArea cv2 contour in
  if ge area min_area then (rooms ++ [room_of class_id contour])%list
  else rooms.

(** Body of the outer loop. *)
Definition extract_class (mask : Mask) (min_area : Q)
    (rooms : list PixelRoom) (class_id : Z) : result (list PixelRoom) :=
  if bool_decide (class_id ∈ [0; 2]) then Ok rooms
  else
    let? contours := findContours cv2 (class_mask mask class_id) in
    Ok (fold_left (extract_contour min_area class_id) contours rooms).

Definition extract_rooms_from_mask (mask : Mask) (min_area : Q)
    : result (list PixelRoom) :=
  rfor_each (extract_class mask min_area) (range NUM_CLASSES) [].

(** [key = model_path or "default"]: [None] and the empty string are
    falsy. *)
Definition cache_key (model_path : option string) : string :=
  match model_path with
  | None => "default"
  | Some p => if String.eqb p "" then "default" else p
  end.

Definition load_floorplan_model (model_path : option string)
    : M World FloorPlanSegmentationModel :=
  let key := cache_key model_path in
  let! hit := cache_get key in
  run! (match hit with
        | Some _ => ret tt
        | None =>
            let! m := __init__ model_path None 512 in
            cache_set key m
        end) in
  let! stored := cache_get key in
  match stored with
  | Some m => ret m
  | None => raise (Exception "KeyError" key)
  end.

(** Lines 136-139: the body of the [try]. *)
Definition detect_try_body (image : Image)
    (model : option FloorPlanSegmentationModel) (min_area : Q)
    : M World (list PixelRoom) :=
  let! model :=
    match model with
    | None => load_floorplan_model None
    | Some m => ret m
    end in
  let! mask := lift (predict model image) in
  lift (extract_rooms_from_mask mask min_area).

Definition detect_rooms_floorplan_model (image : Image)
    (model : option FloorPlanSegmentationModel) (min_area : Q)
    : M World (list PixelRoom) :=
  if negb (TORCH_AVAILABLE torch) then ret []
  else
    try_except
      (detect_try_body image model min_area)
      is_Exception
      (fun e =>
         run! print ("[FloorPlanModel] Detection failed: " ++ exn_str e) in
         ret []).

(** A process lifetime as far as the cache is concerned: a sequence of
    [load_floorplan_model] calls, with the outcome of each. *)
Fixpoint lookups (paths : list (option string)) (w : World)
    : list (result FloorPlanSegmentationModel) * World :=
  match paths with
  | [] => ([], w)
  | p :: rest =>
      let '(r, w1) := load_floorplan_model p w in
      let '(rs, w2) := lookups rest w1 in
      (r :: rs, w2)
  end.

End Model.

(** The interpreter state right after the module is imported. *)
Definition initial_world : World :=
  {| _floorplan_model_cache := ∅; next_obj := 0; stdout := [] |}.

(** [min_area=500], the default of both entry points. *)
Definition default_min_area : Q := 500.

(** Object identities are handed out once: every cached instance was
    allocated before [next_obj], and no two keys hold the same object. *)
Definition cache_wf (w : World) : Prop :=
  (forall k m, _floorplan_model_cache w !! k = Some m -> (obj_id m < next_obj w)%nat) /\
  (forall k1 k2 m1 m2,
      _floorplan_model_cache w !! k1 = Some m1 ->
      _floorplan_model_cache w !! k2 = Some m2 ->
      obj_id m1 = obj_id m2 -> k1 = k2).

(** A rectangle labelled with a room category. *)
Definition is_room (r : PixelRoom) : Prop :=
  class_name r <> "background" /\ class_name r <> "wall".

(** Class indices the outer loop does not skip. *)
Definition room_classes : list Z :=
  List.filter (fun k => negb (bool_decide (k ∈ [0; 2]))) (range NUM_CLASSES).

End FloorplanModel.

(* ===================================================================== *)
(** * main.py                                                            *)
(* ===================================================================== *)

Module Main.

Section Handler.
Context {F : PyFloat} {O : PyFloatOrd F}.

(** Metric-space room: the dict [{"x", "y", "width", "height", "area_m2"}]
    appended to [rooms_m].  Origin bottom-left, y upward. *)
Record MetricRoom : Type := {
  mx : num;
  my : num;
  width : num;
  height : num;
  area_m2 : num;
}.

(** What [detect_scale] returns. *)
Record ScaleResult : Type := {
  pixels_per_metre : num;
  scale_text : string;
  confidence : string;
}.

(** One [gbxml.add_space(...)] call. *)
Record Space : Type := {
  space_id : string;
  name : string;
  sx : num;
  sy : num;
  sz : num;
  swidth : num;
  sdepth : num;
  sheight : num;
}.

(** JSON-like Python values: what the handler returns and dumps. *)
Inductive pyval : Type :=
| PInt (z : Z)
| PFloat (x : num)
| PStr (s : string)
| PList (items : list pyval)
| PDict (entries : list (string * pyval)).

(** [d[key]] on a dict value. *)
Fixpoint dict_get (key : string) (entries : list (string * pyval)) : option pyval :=
  match entries with
  | [] => None
  | (k, v) :: rest => if String.eqb k key then Some v else dict_get key rest
  end.

Definition getitem (v : pyval) (key : string) : option pyval :=
  match v with
  | PDict entries => dict_get key entries
  | _ => None
  end.

Definition keys (v : pyval) : list string :=
  match v with
  | PDict entries => map fst entries
  | _ => []
  end.

(** Every dict key, and every string value, occurring anywhere in a value. *)
Fixpoint all_keys (v : pyval) : list string :=
  match v with
  | PList items => flat_map all_keys items
  | PDict entries =>
      (fix go (es : list (string * pyval)) : list string :=
         match es with
         | [] => []
         | (k, x) :: rest => (k :: all_keys x ++ go rest)%list
         end) entries
  | _ => []
  end.

Fixpoint all_strs (v : pyval) : list string :=
  match v with
  | PStr s => [s]
  | PList items => flat_map all_strs items
  | PDict entries =>
      (fix go (es : list (string * pyval)) : list string :=
         match es with
         | [] => []
         | (_, x) :: rest => (all_strs x ++ go rest)%list
         end) entries
  | _ => []
  end.

(** What a request does to the outside, in order. *)
Inductive Event : Type :=
| Print (line : string)
| Mkdir (path : string)
| ImWrite (path : string)
| CallDetectScale
| CallDetectRoomsAdvanced (method : string) (use_sam : bool) (debug_dir : string)
| CallDetectRooms (use_sam : bool) (debug_dir : string)
| GbxmlSave (path : string) (building : string) (spaces : list Space)
| ExportObj (path : string)
| WriteText (path : string) (doc : pyval).

Definition Trace : Type := list Event.

Definition emit (e : Event) : M Trace unit := fun tr => (Ok tt, (tr ++ [e])%list).

(** [m] only appends to the trace, and every event it appends satisfies
    [P]. *)
Definition emits_only {A} (P : Event -> Prop) (m : M Trace A) : Prop :=
  forall tr, exists events,
    snd (m tr) = (tr ++ events)%list /\ Forall P events.

(** Everything the handler imports or reads from its surroundings:
    [gem_ai.detector], [gem_ai.scale], [gem_ai.exporter], the image codec,
    the job identifier and the clock. *)
Record Collaborators : Type := {
  SAM_AVAILABLE : bool;
  RESULTS_DIR : string;
  uuid4 : string;
  elapsed : num;
  imdecode : list Init.Byte.byte -> option Image;
  cvtColor : Image -> GrayImage;
  detect_scale : GrayImage -> result ScaleResult;
  detect_rooms_advanced :
    Image -> GrayImage -> string -> bool -> string -> result (list PixelRoom);
  detect_rooms : Image -> GrayImage -> bool -> string -> result (list PixelRoom);
  gbxml_save : string -> list Space -> string -> result unit;
  export_obj : list MetricRoom -> num -> string -> result unit;
}.

Variable env : Collaborators.

(** Calls of a detection strategy, and writes of an output artifact. *)
Definition is_detector_call (ev : Event) : bool :=
  match ev with
  | CallDetectRoomsAdvanced _ _ _ | CallDetectRooms _ _ => true
  | _ => false
  end.

Definition is_artifact (ev : Event) : bool :=
  match ev with
  | GbxmlSave _ _ _ | ExportObj _ | WriteText _ _ => true
  | _ => false
  end.

(** [job_dir = RESULTS_DIR / job_id] with [job_id = str(uuid.uuid4())[:8]]. *)
Definition job_id_of (c : Collaborators) : string := substring 0 8 (uuid4 c).
Definition job_dir_of (c : Collaborators) : string :=
  RESULTS_DIR c ++ "/" ++ job_id_of c.

(** An event that, if it is a call of the hybrid detector, is
    justified by an empty answer of the trained-model strategy on the
    decoded upload. *)
Definition hybrid_call_justified (contents : list Init.Byte.byte)
    (use_sam : bool) (ev : Event) : Prop :=
  forall f d,
    ev = CallDetectRooms f d ->
    exists image,
      imdecode env contents = Some image /\
      detect_rooms_advanced env image (cvtColor env image) "floorplan"
        (use_sam && SAM_AVAILABLE env) d = Ok [].

(** [gray.shape] *)
Definition shape (gray : GrayImage) : Z * Z :=
  (Z.of_nat (length gray), Z.of_nat (length (hd [] gray))).

(** Lines 178-192: the scale used, and the [scale_info] dict. *)
Definition scale_stage (gray : GrayImage) (pixels_per_metre_arg : option num)
    : M Trace (num * pyval) :=
  match pixels_per_metre_arg with
  | None =>
      run! emit CallDetectScale in
      let! scale_result := lift (detect_scale env gray) in
      let ppm := pixels_per_metre scale_result in
      ret (ppm, PDict [ ("detected", PStr (scale_text scale_result));
                        ("pixels_per_metre", PFloat ppm);
                        ("confidence", PStr (confidence scale_result)) ])
  | Some ppm =>
      ret (ppm, PDict [ ("detected", PStr "user_provided");
                        ("pixels_per_metre", PFloat ppm);
                        ("confidence", PStr "user") ])
  end.

(** Lines 195-211: the trained model first, the hybrid detector if it
    found nothing. *)
Definition detect_stage (image : Image) (gray : GrayImage) (use_sam : bool)
    (job_dir : string) : M Trace (list PixelRoom) :=
  let flag := use_sam && SAM_AVAILABLE env in
  run! emit (Print "[ANALYZE] Starting room detection with floorplan model...") in
  run! emit (CallDetectRoomsAdvanced "floorplan" flag job_dir) in
  let! rooms_px := lift (detect_rooms_advanced env image gray "floorplan" flag job_dir) in
  let! rooms_px :=
    (match rooms_px with
     | [] =>
         run! emit (Print "[ANALYZE] Floorplan model found no rooms, falling back to hybrid...") in
         run! emit (CallDetectRooms flag job_dir) in
         lift (detect_rooms env image gray flag job_dir)
     | _ :: _ => ret rooms_px
     end) in
  run! emit (Print ("[ANALYZE] Room detection complete: "
                    ++ str_nat (length rooms_px) ++ " rooms found")) in
  ret rooms_px.

(** Lines 219-227: one iteration of the conversion loop. *)
Definition project (height : Z) (ppm : num) (r : PixelRoom) : result MetricRoom :=
  let x := px r in
  let y := py r in
  let w := pw r in
  let h := ph r in
  let? y_flipped := int_truediv (height - y - h) ppm in
  let? x_m := int_truediv x ppm in
  let? width_m := int_truediv w ppm in
  let? height_m := int_truediv h ppm in
  let? w_m := int_truediv w ppm in
  let? h_m := int_truediv h ppm in
  Ok {| mx := x_m; my := y_flipped; width := width_m; height := height_m;
        area_m2 := fmul w_m h_m |}.

(** Lines 217-227: [rooms_m]. *)
Definition project_all (height : Z) (ppm : num) (rooms_px : list PixelRoom)
    : result (list MetricRoom) :=
  rfor_each
    (fun rooms_m r => let? m := project height ppm r in Ok (rooms_m ++ [m])%list)
    rooms_px [].

(** Lines 234-235: the label derived from the aspect ratio. *)
Definition room_type (room : MetricRoom) : result string :=
  let? aspect :=
    truediv (py_max (width room) (height room))
            (py_max (literal 1 (-1)) (py_min (width room) (height room))) in
  Ok (if flt (literal 5 0) aspect then "Corridor"
      else if flt (literal 3 0) aspect then "Circulation"
      else "Room").

(** Lines 233-244: one [add_space] per room, numbered from 1. *)
Definition add_space (floor_height : num) (acc : list Space * nat)
    (room : MetricRoom) : result (list Space * nat) :=
  let '(spaces, i) := acc in
  let? rt := room_type room in
  Ok ((spaces ++ [ {| space_id := "space-" ++ fmt_03d i;
                      name := rt ++ "_" ++ fmt_03d i;
                      sx := mx room; sy := my room; sz := literal 0 0;
                      swidth := width room; sdepth := height room;
                      sheight := floor_height |} ])%list, S i).

Definition gbxml_spaces (floor_height : num) (rooms_m : list MetricRoom)
    : result (list Space) :=
  let? acc := rfor_each (add_space floor_height) rooms_m ([], 1%nat) in
  Ok (fst acc).

Definition metric_dict (room : MetricRoom) : pyval :=
  PDict [ ("x", PFloat (mx room)); ("y", PFloat (my room));
          ("width", PFloat (width room)); ("height", PFloat (height room));
          ("area_m2", PFloat (area_m2 room)) ].

(** Lines 263-280: the result record. *)
Definition make_result (job_id : string) (use_sam : bool) (scale_info : pyval)
    (img_width img_height : Z) (rooms_m : list MetricRoom) (total_area : num)
    (floor_height : num) : pyval :=
  PDict
    [ ("job_id", PStr job_id);
      ("status", PStr "success");
      ("processing_time_sec", PFloat (round_ndigits (elapsed env) 2));
      ("method", PStr (if use_sam && SAM_AVAILABLE env then "SAM" else "Classical CV"));
      ("scale", scale_info);
      ("image_size", PDict [ ("width", PInt img_width); ("height", PInt img_height) ]);
      ("rooms_detected", PInt (Z.of_nat (length rooms_m)));
      ("total_area_m2", PFloat (round_ndigits total_area 1));
      ("floor_height_m", PFloat floor_height);
      ("rooms", PList (map metric_dict rooms_m));
      ("files", PDict
         [ ("preview", PStr ("/download/" ++ job_id ++ "/preview.png"));
           ("gbxml", PStr ("/download/" ++ job_id ++ "/floorplan.xml"));
           ("obj", PStr ("/download/" ++ job_id ++ "/floorplan.obj"));
           ("input", PStr ("/download/" ++ job_id ++ "/input.png")) ]) ].

(** Every dict key that can occur in a result record. *)
Definition result_vocabulary : list string :=
  [ "job_id"; "status"; "processing_time_sec"; "method"; "scale";
    "detected"; "pixels_per_metre"; "confidence";
    "image_size"; "width"; "height";
    "rooms_detected"; "total_area_m2"; "floor_height_m";
    "rooms"; "x"; "y"; "area_m2";
    "files"; "preview"; "gbxml"; "obj"; "input" ].

(** Lines 161-284: the body of the [try].  [cv2.imdecode] is embedded by
    what it returns, an image or [None]; the writes of [input.png],
    [preview.png] and [result.json] and the drawing of the preview are
    recorded in the trace and taken to succeed. *)
Definition analyze_body (job_id job_dir : string) (contents : list Init.Byte.byte)
    (pixels_per_metre_arg : option num) (floor_height : num) (use_sam : bool)
    (building_name : string) : M Trace pyval :=
  run! emit (Print "[ANALYZE] Reading uploaded file...") in
  run! emit (Print ("[ANALYZE] File read: " ++ str_nat (length contents) ++ " bytes")) in
  match imdecode env contents with
  | None => raise (HTTPException 400 "Invalid image file")
  | Some image =>
      let gray := cvtColor env image in
      let '(img_height, img_width) := shape gray in
      run! emit (ImWrite (job_dir ++ "/input.png")) in
      let! scale := scale_stage gray pixels_per_metre_arg in
      let '(ppm, scale_info) := scale in
      let! rooms_px := detect_stage image gray use_sam job_dir in
      match rooms_px with
      | [] => raise (HTTPException 422 "No rooms detected in image")
      | _ :: _ =>
          let! rooms_m := lift (project_all img_height ppm rooms_px) in
          let total_area := py_sum (map area_m2 rooms_m) in
          let! spaces := lift (gbxml_spaces floor_height rooms_m) in
          run! emit (GbxmlSave (job_dir ++ "/floorplan.xml") building_name spaces) in
          run! lift (gbxml_save env building_name spaces (job_dir ++ "/floorplan.xml")) in
          run! emit (ExportObj (job_dir ++ "/floorplan.obj")) in
          run! lift (export_obj env rooms_m floor_height (job_dir ++ "/floorplan.obj")) in
          run! emit (ImWrite (job_dir ++ "/preview.png")) in
          let result := make_result job_id use_sam scale_info img_width img_height
                          rooms_m total_area floor_height in
          run! emit (WriteText (job_dir ++ "/result.json") result) in
          ret result
      end
  end.

(** [POST /analyze].  The creation of the job directory at line 156, before
    the [try], is recorded in the trace and taken to succeed. *)
Definition analyze_floorplan (contents : list Init.Byte.byte)
    (pixels_per_metre_arg : option num) (floor_height : num) (use_sam : bool)
    (building_name : string) : M Trace pyval :=
  run! emit (Print ("[ANALYZE] Request received - use_sam=" ++ str_bool use_sam
                    ++ ", SAM_AVAILABLE=" ++ str_bool (SAM_AVAILABLE env))) in
  let job_id := job_id_of env in
  let job_dir := job_dir_of env in
  run! emit (Mkdir job_dir) in
  try_except
    (analyze_body job_id job_dir contents pixels_per_metre_arg floor_height
       use_sam building_name)
    is_Exception
    (fun e =>
       if is_HTTPException e then raise e
       else raise (HTTPException 500 (exn_str e))).

End Handler.

End Main.

(* ===================================================================== *)
(** * The inverse of the projection, as the specification words it        *)
(* ===================================================================== *)

Module Inverse.
Import Main.

(** The source has no inverse transform.  This one follows the
    specification's round-trip property: multiply [x], [width] and
    [height] by [ppm], and undo the y-flip with the same image height,
    [y = H - y_m * ppm - h].  It is stated over exact rationals. *)
Definition unproject (H : Z) (ppm : Q) (m : MetricRoom (F:=QFloat))
    : Q * Q * Q * Q :=
  let x := (mx m * ppm)%Q in
  let w := (width m * ppm)%Q in
  let h := (height m * ppm)%Q in
  let y := (inject_Z H - my m * ppm - h)%Q in
  (x, y, w, h).

End Inverse.

(* ===================================================================== *)
(** * Concrete collaborators and inputs for worked instances             *)
(* ===================================================================== *)

Module Fixtures.
Import FloorplanModel.

(** The closed contour OpenCV reports for an axis-aligned block of pixels
    with top-left corner [(x, y)], [w] columns and [h] rows. *)
Definition rect_contour (x y w h : Z) : Contour :=
  [ (x, y); (x, y + h - 1); (x + w - 1, y + h - 1); (x + w - 1, y) ].

(** Twice the signed area of a polygon (Green's formula), as
    [cv2.contourArea] computes it. *)
Fixpoint shoelace (first : Z * Z) (pts : list (Z * Z)) : Z :=
  match pts with
  | [] => 0
  | [p] => fst p * snd first - fst first * snd p
  | p :: (q :: _) as rest => fst p * snd q - fst q * snd p + shoelace first rest
  end.

Definition polygon_area (c : Contour) : Q :=
  match c with
  | [] => 0
  | p :: _ => (Z.abs (shoelace p c) # 2)%Q
  end.

Definition bounding_box (c : Contour) : Z * Z * Z * Z :=
  match c with
  | [] => (0, 0, 0, 0)
  | (x0, y0) :: rest =>
      let xmin := fold_left Z.min (map fst rest) x0 in
      let xmax := fold_left Z.max (map fst rest) x0 in
      let ymin := fold_left Z.min (map snd rest) y0 in
      let ymax := fold_left Z.max (map snd rest) y0 in
      (xmin, ymin, xmax - xmin + 1, ymax - ymin + 1)
  end.

(** Four regions in every class mask that has a foreground pixel: two of
    1000 px², one of exactly 500 px², one of 16 px². *)
Definition four_regions : list Contour :=
  [ rect_contour 10 10 41 26; rect_contour 100 10 41 26;
    rect_contour 200 0 26 21; rect_contour 0 0 5 5 ].

Definition cv2_regions : OpenCV :=
  {| findContours := fun m =>
       Ok (if existsb (existsb (Z.eqb 255)) m then four_regions else []);
     contourArea := polygon_area;
     boundingRect := bounding_box |}.

(** An OpenCV whose contour search fails. *)
Definition cv2_broken : OpenCV :=
  {| findContours := fun _ => Raise (Exception "cv2.error" "findContours failed");
     contourArea := polygon_area;
     boundingRect := bounding_box |}.

(** A mask with background, wall and bedroom pixels. *)
Definition bedroom_mask : Mask := [ [0; 5; 5]; [2; 5; 0] ].

Definition blank_image : Image := [ [ (255, 255, 255) ] ].

(** torch and torchvision installed, weights present at every path. *)
Definition torch_ok : Torch :=
  {| TORCH_AVAILABLE := true;
     TORCH_IMPORT_ERROR := "None";
     cuda_is_available := false;
     get_model_cache_dir := "/app/gem_ai/models";
     path_exists := fun _ => true;
     ResNetUNet := Ok tt;
     load_state_dict := fun _ _ => Ok tt;
     model_to := fun _ => Ok tt;
     tensor_to := fun _ => Ok tt |}.

(** torch installed, torchvision not: the [try] block of lines 17-24 failed
    at its last import, so the module runs with [TORCH_AVAILABLE = False]
    and has no [models] to build the encoder from. *)
Definition torch_absent : Torch :=
  {| TORCH_AVAILABLE := false;
     TORCH_IMPORT_ERROR := "No module named 'torchvision'";
     cuda_is_available := false;
     get_model_cache_dir := "/app/gem_ai/models";
     path_exists := fun _ => false;
     ResNetUNet := Raise (Exception "NameError" "name 'models' is not defined");
     load_state_dict := fun _ _ => Ok tt;
     model_to := fun _ => Ok tt;
     tensor_to := fun _ => Ok tt |}.

Definition predict_bedroom (_ : FloorPlanSegmentationModel) (_ : Image) : result Mask :=
  Ok bedroom_mask.

Definition predict_fails (_ : FloorPlanSegmentationModel) (_ : Image) : result Mask :=
  Raise (Exception "RuntimeError" "out of memory").

(** ** The request handler's surroundings, in exact arithmetic. *)

Import Main.

(** The rectangle of the worked projection example. *)
Definition scenario3 : PixelRoom :=
  {| px := 100; py := 50; pw := 80; ph := 40; class_name := "bedroom" |}.

(** A decoded upload: 600 rows of one white pixel. *)
Definition upload : list Init.Byte.byte :=
  [ Init.Byte.x89; Init.Byte.x50; Init.Byte.x4e; Init.Byte.x47 ].
Definition decoded : Image := repeat [ (255, 255, 255) ] 600.

Definition no_rooms (_ : Image) (_ : GrayImage) (_ : bool) (_ : string)
    : result (list PixelRoom) := Ok [].

(** The trained model finds nothing, the hybrid detector finds one room. *)
Definition hybrid_finds_one : Collaborators (F:=QFloat) :=
  {| SAM_AVAILABLE := true;
     RESULTS_DIR := "/tmp/gem-ai-results";
     uuid4 := "0f8fad5b-d9cb-469f-a165-70867728950e";
     elapsed := ((1234 # 1000)%Q : @num QFloat);
     imdecode := fun _ => Some decoded;
     cvtColor := map (map (fun _ => 255));
     detect_scale := fun _ =>
       Ok (@Build_ScaleResult QFloat 100%Q "1:100" "high");
     detect_rooms_advanced := fun image gray _ => no_rooms image gray;
     detect_rooms := fun _ _ _ _ => Ok [scenario3];
     gbxml_save := fun _ _ _ => Ok tt;
     export_obj := fun _ _ _ => Ok tt |}.

(** Neither strategy finds a room. *)
Definition nothing_found : Collaborators (F:=QFloat) :=
  {| SAM_AVAILABLE := false;
     RESULTS_DIR := "/tmp/gem-ai-results";
     uuid4 := "0f8fad5b-d9cb-469f-a165-70867728950e";
     elapsed := ((1234 # 1000)%Q : @num QFloat);
     imdecode := fun _ => Some decoded;
     cvtColor := map (map (fun _ => 255));
     detect_scale := fun _ =>
       Ok (@Build_ScaleResult QFloat 100%Q "1:100" "high");
     detect_rooms_advanced := fun image gray _ => no_rooms image gray;
     detect_rooms := no_rooms;
     gbxml_save := fun _ _ _ => Ok tt;
     export_obj := fun _ _ _ => Ok tt |}.

End Fixtures.

(* ===================================================================== *)
(** * main.py: the startup hook and the result endpoint                  *)
(* ===================================================================== *)

Module Service.
Import Main.

Section Startup.
(** [gem_ai.detector.SAM_AVAILABLE] and [load_sam_model], which are not
    part of the repository's sources. *)
Variable sam_available : bool.
Variable load_sam_model : string -> result unit.

Definition say (line : string) : M (list string) unit :=
  fun out => (Ok tt, (out ++ [line])%list).

(** Lines 54-66: [preload_sam_model], run once when the server starts. *)
Definition preload_sam_model : M (list string) unit :=
  run! say ("[STARTUP] SAM_AVAILABLE=" ++ str_bool sam_available) in
  if sam_available then
    run! say "[STARTUP] Preloading SAM model..." in
    try_except
      (run! lift (load_sam_model "vit_b") in
       say "[STARTUP] SAM model loaded successfully!")
      is_Exception
      (fun e => say ("[STARTUP] Failed to preload SAM model: " ++ exn_str e))
  else
    say "[STARTUP] SAM not available, skipping preload".

End Startup.

Section Results.
Context {F : PyFloat}.

(** What a file under [RESULTS_DIR] holds: the JSON text of a document --
    represented by the document, [json.loads] being the inverse of
    [json.dumps] on these values -- or something that is not JSON. *)
Inductive FileBody : Type :=
| JsonText (doc : pyval)
| Binary.

(** The effect on the files of one event of a request.  Only the files the
    handler writes itself are tracked; the exporters write
    [floorplan.xml] and [floorplan.obj], which no endpoint modelled here
    reads. *)
Definition written (fs : gmap string FileBody) (ev : Event) : gmap string FileBody :=
  match ev with
  | WriteText path doc => <[path := JsonText doc]> fs
  | ImWrite path => <[path := Binary]> fs
  | _ => fs
  end.

Definition files_after (tr : Trace) (fs : gmap string FileBody)
    : gmap string FileBody :=
  fold_left written tr fs.

(** Lines 292-301: [GET /result/{job_id}]. *)
Definition get_result (results_dir : string) (fs : gmap string FileBody)
    (job_id : string) : result pyval :=
  let job_dir := results_dir ++ "/" ++ job_id in
  let result_file := job_dir ++ "/result.json" in
  match fs !! result_file with
  | None => Raise (HTTPException 404 "Job not found")
  | Some (JsonText doc) => Ok doc
  | Some Binary => Raise (Exception "JSONDecodeError" "Expecting value")
  end.

End Results.

End Service.

(** Events that leave a file behind. *)
Definition writes_file {F : PyFloat} (ev : Main.Event) : bool :=
  match ev with
  | Main.ImWrite _ | Main.GbxmlSave _ _ _ | Main.ExportObj _ | Main.WriteText _ _ => true
  | _ => false
  end.

(** The longer side of a room and its guarded shorter side
    [max(0.1, min(width, height))], in exact arithmetic: the two numbers
    the aspect ratio of lines 234-235 is the quotient of. *)
Definition longer (room : Main.MetricRoom (F:=QFloat)) : Q :=
  py_max (F:=QFloat) (Main.width room) (Main.height room).
Definition shorter (room : Main.MetricRoom (F:=QFloat)) : Q :=
  py_max (F:=QFloat) (literal (F:=QFloat) 1 (-1))
    (py_min (F:=QFloat) (Main.width room) (Main.height room)).

(** The nine category names a room can carry. *)
Definition room_names : list string :=
  [ "outdoor"; "kitchen"; "living_room"; "bedroom"; "bathroom"; "hallway";
    "storage"; "garage"; "other" ].

(** [mask[i][j]], when the position is inside the array. *)
Definition pixel (m : Mask) (i j : nat) : option Z :=
  match m !! i with
  | Some row => row !! j
  | None => None
  end.

(** More collaborators for worked instances. *)
Module Cases.
Import FloorplanModel Main.

(** torch installed, no weights file anywhere. *)
Definition torch_no_weights : Torch :=
  {| TORCH_AVAILABLE := true;
     TORCH_IMPORT_ERROR := "None";
     cuda_is_available := true;
     get_model_cache_dir := "/app/gem_ai/models";
     path_exists := fun _ => false;
     ResNetUNet := Ok tt;
     load_state_dict := fun _ _ => Raise (Exception "RuntimeError" "unreachable");
     model_to := fun _ => Ok tt;
     tensor_to := fun _ => Ok tt |}.

(** torch installed, the weights file is there but cannot be loaded. *)
Definition torch_bad_weights : Torch :=
  {| TORCH_AVAILABLE := true;
     TORCH_IMPORT_ERROR := "None";
     cuda_is_available := false;
     get_model_cache_dir := "/app/gem_ai/models";
     path_exists := fun _ => true;
     ResNetUNet := Ok tt;
     load_state_dict := fun _ _ => Raise (Exception "RuntimeError" "size mismatch");
     model_to := fun _ => Ok tt;
     tensor_to := fun _ => Ok tt |}.

(** An upload that does not decode. *)
Definition undecodable : Collaborators (F:=QFloat) :=
  {| SAM_AVAILABLE := true;
     RESULTS_DIR := "/tmp/gem-ai-results";
     uuid4 := "0f8fad5b-d9cb-469f-a165-70867728950e";
     elapsed := ((1234 # 1000)%Q : @num QFloat);
     imdecode := fun _ => None;
     cvtColor := map (map (fun _ => 255));
     detect_scale := fun _ => Raise (Exception "RuntimeError" "no scale bar");
     detect_rooms_advanced := fun _ _ _ _ _ => Ok [];
     detect_rooms := fun _ _ _ _ => Ok [];
     gbxml_save := fun _ _ _ => Ok tt;
     export_obj := fun _ _ _ => Ok tt |}.

(** The trained-model strategy raises; the hybrid detector would find a
    room. *)
Definition primary_raises : Collaborators (F:=QFloat) :=
  {| SAM_AVAILABLE := true;
     RESULTS_DIR := "/tmp/gem-ai-results";
     uuid4 := "0f8fad5b-d9cb-469f-a165-70867728950e";
     elapsed := ((1234 # 1000)%Q : @num QFloat);
     imdecode := fun _ => Some Fixtures.decoded;
     cvtColor := map (map (fun _ => 255));
     detect_scale := fun _ => Raise (Exception "RuntimeError" "no scale bar");
     detect_rooms_advanced := fun _ _ _ _ _ =>
       Raise (Exception "ValueError" "unknown method");
     detect_rooms := fun _ _ _ _ => Ok [Fixtures.scenario3];
     gbxml_save := fun _ _ _ => Ok tt;
     export_obj := fun _ _ _ => Ok tt |}.

End Cases.

(* ===================================================================== *)
(** * Properties of the room extractor                                   *)
(* ===================================================================== *)

Section ExtractorFacts.
Import FloorplanModel.
Variable cv2 : OpenCV.

(** Only keys 0 and 2 of [ROOM_CATEGORIES] name a non-room category. *)
Lemma category_not_room (k : Z) (s : string) :
  ROOM_CATEGORIES !! k = Some s ->
  s = "background" \/ s = "wall" ->
  k = 0 \/ k = 2.
Proof.
  intros Hk Hs.
  apply elem_of_list_to_map_2 in Hk.
  repeat (apply elem_of_cons in Hk as [Hk | Hk];
          [ injection Hk as -> -> ; destruct Hs; (discriminate || lia) | ]).
  inversion Hk.
Qed.

Lemma emitted_name_is_room (k : Z) :
  k ∉ [0; 2] ->
  default "other" (ROOM_CATEGORIES !! k) <> "background" /\
  default "other" (ROOM_CATEGORIES !! k) <> "wall".
Proof.
  intros Hk.
  destruct (ROOM_CATEGORIES !! k) as [s|] eqn:E; simpl.
  - split; intros ->;
      (destruct (category_not_room k _ E) as [-> | ->];
       [ auto | apply Hk; set_solver | apply Hk; set_solver ]).
  - split; discriminate.
Qed.

(** The inner loop appends, in order, the rooms of the contours that pass
    the area test. *)
Lemma inner_loop_filter (min_area : Q) (k : Z) (cs : list Contour)
    (rooms : list PixelRoom) :
  fold_left (extract_contour cv2 min_area k) cs rooms =
  (rooms ++ map (room_of cv2 k)
              (List.filter (fun c => ge (contourArea cv2 c) min_area) cs))%list.
Proof.
  revert rooms. induction cs as [|c cs IH]; intros rooms; simpl.
  - now rewrite app_nil_r.
  - rewrite IH. unfold extract_contour.
    destruct (ge (contourArea cv2 c) min_area); simpl.
    + now rewrite <- app_assoc.
    + reflexivity.
Qed.

Lemma extract_class_rooms (mask : Mask) (min_area : Q) (k : Z)
    (rooms rooms' : list PixelRoom) :
  Forall is_room rooms ->
  extract_class cv2 mask min_area rooms k = Ok rooms' ->
  Forall is_room rooms'.
Proof.
  intros Hrooms. unfold extract_class.
  case_bool_decide as Hk.
  - intros [= <-]. exact Hrooms.
  - destruct (findContours cv2 (class_mask mask k)) as [cs|e]; simpl; [|discriminate].
    intros [= <-]. rewrite inner_loop_filter.
    apply Forall_app. split; [exact Hrooms|].
    apply Forall_forall. intros r Hr.
    apply list_elem_of_In, in_map_iff in Hr as (c & <- & _).
    unfold room_of. destruct (boundingRect cv2 c) as [[[x y] w] h]. simpl.
    apply emitted_name_is_room, Hk.
Qed.

Lemma outer_loop_rooms (mask : Mask) (min_area : Q) (ks : list Z)
    (rooms rooms' : list PixelRoom) :
  Forall is_room rooms ->
  rfor_each (extract_class cv2 mask min_area) ks rooms = Ok rooms' ->
  Forall is_room rooms'.
Proof.
  revert rooms. induction ks as [|k ks IH]; intros rooms Hrooms; simpl.
  - intros [= <-]. exact Hrooms.
  - destruct (extract_class cv2 mask min_area rooms k) as [rooms1|e] eqn:E;
      simpl; [|discriminate].
    apply IH. eapply extract_class_rooms; eauto.
Qed.

(** The extractor returns whenever the contour search does. *)
Lemma extract_returns (mask : Mask) (min_area : Q) :
  (forall m, exists cs, findContours cv2 m = Ok cs) ->
  exists rooms, extract_rooms_from_mask cv2 mask min_area = Ok rooms.
Proof.
  intros Hfc. unfold extract_rooms_from_mask.
  generalize (@nil PixelRoom). induction (range NUM_CLASSES) as [|k ks IH];
    intros rooms; simpl.
  - eauto.
  - unfold extract_class at 1. case_bool_decide; simpl.
    + apply IH.
    + destruct (Hfc (class_mask mask k)) as [cs ->]. simpl. apply IH.
Qed.

(** C6: for every segmentation mask and every [min_area], no rectangle
    returned by the room extractor is labelled "background" or "wall". *)
Theorem extract_never_background_or_wall (mask : Mask) (min_area : Q)
    (rooms : list PixelRoom) :
  extract_rooms_from_mask cv2 mask min_area = Ok rooms ->
  Forall (fun r => class_name r <> "background" /\ class_name r <> "wall") rooms.
Proof.
  intros H. apply (outer_loop_rooms mask min_area (range NUM_CLASSES) [] rooms);
    [constructor | exact H].
Qed.

Lemma outer_loop_classes (mask : Mask) (min_area : Q) (ks : list Z)
    (acc rooms : list PixelRoom) :
  rfor_each (extract_class cv2 mask min_area) ks acc = Ok rooms ->
  exists candidates : list (list Contour),
    Forall2 (fun k cs => findContours cv2 (class_mask mask k) = Ok cs)
      (List.filter (fun k => negb (bool_decide (k ∈ [0; 2]))) ks) candidates /\
    rooms =
      (acc ++ concat
         (zip_with
            (fun k cs =>
               map (room_of cv2 k)
                 (List.filter (fun c => ge (contourArea cv2 c) min_area) cs))
            (List.filter (fun k => negb (bool_decide (k ∈ [0; 2]))) ks)
            candidates))%list.
Proof.
  revert acc. induction ks as [|k ks IH]; intros acc; simpl.
  - intros [= <-]. exists []. split; [constructor | now rewrite app_nil_r].
  - unfold extract_class at 1. case_bool_decide as Hk; simpl.
    + apply IH.
    + destruct (findContours cv2 (class_mask mask k)) as [cs|e] eqn:Hcs;
        simpl; [|discriminate].
      intros H. apply IH in H as (cands & Hall & ->).
      exists (cs :: cands). split; [constructor; assumption|].
      simpl. rewrite inner_loop_filter. now rewrite <- app_assoc.
Qed.

(** The area test [area >= min_area] fails exactly below the threshold. *)
Lemma ge_false_iff_lt (a b : Q) : ge a b = false <-> (a < b)%Q.
Proof.
  unfold ge. split.
  - intros H. apply Qnot_le_lt. intros Hle.
    apply Qle_bool_iff in Hle. congruence.
  - intros H. destruct (Qle_bool b a) eqn:E; [|reflexivity].
    apply Qle_bool_iff in E. exfalso. now apply (Qlt_not_le a b).
Qed.

Lemma ge_true_of_eq (a b : Q) : (a == b)%Q -> ge a b = true.
Proof.
  intros H. unfold ge. apply Qle_bool_iff. rewrite H. apply Qle_refl.
Qed.

(** C7: the extractor's output is, class by class and in discovery order,
    the bounding rectangles of exactly those candidate regions that pass
    the area test; a candidate fails the test exactly when its enclosed
    area is strictly below [min_area], and passes it when the area equals
    [min_area]. *)
Theorem extract_area_threshold (mask : Mask) (min_area : Q)
    (rooms : list PixelRoom) :
  extract_rooms_from_mask cv2 mask min_area = Ok rooms ->
  exists candidates : list (list Contour),
    Forall2 (fun k cs => findContours cv2 (class_mask mask k) = Ok cs)
      room_classes candidates /\
    rooms =
      concat
        (zip_with
           (fun k cs =>
              map (room_of cv2 k)
                (List.filter (fun c => ge (contourArea cv2 c) min_area) cs))
           room_classes candidates) /\
    forall c : Contour,
      (ge (contourArea cv2 c) min_area = false <->
       (contourArea cv2 c < min_area)%Q) /\
      ((contourArea cv2 c == min_area)%Q ->
       ge (contourArea cv2 c) min_area = true).
Proof.
  intros H. apply outer_loop_classes in H as (cands & Hall & ->).
  exists cands. split; [exact Hall|]. split; [reflexivity|].
  intros c. split; [apply ge_false_iff_lt | apply ge_true_of_eq].
Qed.

End ExtractorFacts.

(** Worked instance of C6: a mask with background, wall and bedroom pixels
    yields bedrooms only. *)
Lemma extract_never_background_or_wall_witness :
  FloorplanModel.extract_rooms_from_mask Fixtures.cv2_regions
    Fixtures.bedroom_mask FloorplanModel.default_min_area =
  Ok [ {| px := 10; py := 10; pw := 41; ph := 26; class_name := "bedroom" |};
       {| px := 100; py := 10; pw := 41; ph := 26; class_name := "bedroom" |};
       {| px := 200; py := 0; pw := 26; ph := 21; class_name := "bedroom" |} ] /\
  Forall (fun r => class_name r <> "background" /\ class_name r <> "wall")
    [ {| px := 10; py := 10; pw := 41; ph := 26; class_name := "bedroom" |};
      {| px := 100; py := 10; pw := 41; ph := 26; class_name := "bedroom" |};
      {| px := 200; py := 0; pw := 26; ph := 21; class_name := "bedroom" |} ].
Proof.
  split; [vm_compute; reflexivity|].
  apply (extract_never_background_or_wall Fixtures.cv2_regions
           Fixtures.bedroom_mask FloorplanModel.default_min_area).
  vm_compute; reflexivity.
Defined.

(** Worked instance of C7: of regions of 1000, 1000, 500 and 16 px² the
    first three are kept at [min_area = 500]. *)
Lemma extract_area_threshold_witness :
  FloorplanModel.extract_rooms_from_mask Fixtures.cv2_regions
    Fixtures.bedroom_mask FloorplanModel.default_min_area =
  Ok [ {| px := 10; py := 10; pw := 41; ph := 26; class_name := "bedroom" |};
       {| px := 100; py := 10; pw := 41; ph := 26; class_name := "bedroom" |};
       {| px := 200; py := 0; pw := 26; ph := 21; class_name := "bedroom" |} ] /\
  exists candidates : list (list FloorplanModel.Contour),
    Forall2
      (fun k cs =>
         FloorplanModel.findContours Fixtures.cv2_regions
           (FloorplanModel.class_mask Fixtures.bedroom_mask k) = Ok cs)
      FloorplanModel.room_classes candidates /\
    [ {| px := 10; py := 10; pw := 41; ph := 26; class_name := "bedroom" |};
      {| px := 100; py := 10; pw := 41; ph := 26; class_name := "bedroom" |};
      {| px := 200; py := 0; pw := 26; ph := 21; class_name := "bedroom" |} ] =
      concat
        (zip_with
           (fun k cs =>
              map (FloorplanModel.room_of Fixtures.cv2_regions k)
                (List.filter
                   (fun c => FloorplanModel.ge
                               (FloorplanModel.contourArea Fixtures.cv2_regions c)
                               FloorplanModel.default_min_area)
                   cs))
           FloorplanModel.room_classes candidates) /\
    forall c : FloorplanModel.Contour,
      (FloorplanModel.ge (FloorplanModel.contourArea Fixtures.cv2_regions c)
         FloorplanModel.default_min_area = false <->
       (FloorplanModel.contourArea Fixtures.cv2_regions c
        < FloorplanModel.default_min_area)%Q) /\
      ((FloorplanModel.contourArea Fixtures.cv2_regions c
        == FloorplanModel.default_min_area)%Q ->
       FloorplanModel.ge (FloorplanModel.contourArea Fixtures.cv2_regions c)
         FloorplanModel.default_min_area = true).
Proof.
  split; [vm_compute; reflexivity|].
  apply (extract_area_threshold Fixtures.cv2_regions Fixtures.bedroom_mask
           FloorplanModel.default_min_area).
  vm_compute; reflexivity.
Defined.

(* ===================================================================== *)
(** * Properties of the model cache                                      *)
(* ===================================================================== *)

Section CacheFacts.
Import FloorplanModel.
Variable torch : Torch.

(** The constructor never touches the cache; when it returns, the new
    object has the identity [next_obj] had, and [next_obj] has moved on. *)
Lemma init_frame (p d : option string) (size : Z) (w w1 : World)
    (r : result FloorPlanSegmentationModel) :
  __init__ torch p d size w = (r, w1) ->
  _floorplan_model_cache w1 = _floorplan_model_cache w /\
  (next_obj w <= next_obj w1)%nat /\
  (forall m, r = Ok m -> obj_id m = next_obj w /\ next_obj w1 = S (next_obj w)).
Proof.
  unfold __init__.
  destruct (TORCH_AVAILABLE torch); simpl.
  - unfold bind, new_object, print, lift, ret; simpl.
    destruct (ResNetUNet torch) as [[]|e0]; simpl.
    + destruct (path_exists torch _); simpl;
        [destruct (load_state_dict torch _ _) as [[]|e1]; simpl|];
        try (destruct (model_to torch _) as [[]|e2]; simpl;
             [destruct (tensor_to torch _) as [[]|e3]; simpl|]);
        intros [= <- <-]; simpl;
        (split; [reflexivity | split; [lia|]]);
        intros m Hm; try discriminate Hm;
        injection Hm as <-; simpl; auto.
    + intros [= <- <-]; simpl.
      split; [reflexivity | split; [lia | discriminate]].
  - unfold raise. intros [= <- <-].
    split; [reflexivity | split; [lia | discriminate]].
Qed.

(** What the constructor builds when every call into torch succeeds: the
    network is placed on the chosen device, and carries the weights of the
    file when there is one, its random initialisation (and a warning on
    standard output) when there is none. *)
Lemma init_completes (p d : option string) (size : Z) (w : World) :
  TORCH_AVAILABLE torch = true ->
  ResNetUNet torch = Ok tt ->
  (path_exists torch (weights_path torch p) = true ->
   load_state_dict torch (weights_path torch p) (pick_device torch d) = Ok tt) ->
  model_to torch (pick_device torch d) = Ok tt ->
  tensor_to torch (pick_device torch d) = Ok tt ->
  __init__ torch p d size w
  = (Ok (Build_FloorPlanSegmentationModel (next_obj w) (pick_device torch d) size
           (if path_exists torch (weights_path torch p)
            then Some (weights_path torch p) else None)),
     {| _floorplan_model_cache := _floorplan_model_cache w;
        next_obj := S (next_obj w);
        stdout :=
          (stdout w ++
           [ if path_exists torch (weights_path torch p)
             then ("[FloorPlanModel] Loading weights from " ++ weights_path torch p)%string
             else ("[FloorPlanModel] WARNING: No weights at " ++ weights_path torch p)%string;
             ("[FloorPlanModel] Initialized on " ++ pick_device torch d)%string ])%list |}).
Proof.
  intros Ht Hnet Hload Hto Htensor.
  unfold __init__. rewrite Ht. simpl.
  unfold bind, new_object, print, lift, ret; simpl.
  rewrite Hnet. simpl.
  destruct (path_exists torch (weights_path torch p)); simpl.
  - rewrite (Hload eq_refl). simpl. rewrite Hto. simpl. rewrite Htensor. simpl.
    now rewrite <- app_assoc.
  - rewrite Hto. simpl. rewrite Htensor. simpl.
    now rewrite <- app_assoc.
Qed.

(** A hit returns the stored instance and changes nothing. *)
Lemma load_hit (p : option string) (w : World) (m : FloorPlanSegmentationModel) :
  _floorplan_model_cache w !! cache_key p = Some m ->
  load_floorplan_model torch p w = (Ok m, w).
Proof.
  intros H. unfold load_floorplan_model, bind, cache_get, ret; simpl.
  rewrite H; simpl. now rewrite H.
Qed.

(** A miss runs the constructor once; its instance is stored under the key
    and returned, its exception is passed on. *)
Lemma load_miss (p : option string) (w : World) :
  _floorplan_model_cache w !! cache_key p = None ->
  load_floorplan_model torch p w =
  match __init__ torch p None 512 w with
  | (Ok m, w1) => (Ok m, snd (cache_set (cache_key p) m w1))
  | (Raise e, w1) => (Raise e, w1)
  end.
Proof.
  intros H. unfold load_floorplan_model, bind, cache_get, cache_set, ret; simpl.
  rewrite H; simpl.
  destruct (__init__ torch p None 512 w) as [[m|e] w1]; simpl; [|reflexivity].
  now rewrite lookup_insert_eq.
Qed.

(** One call: entries are kept, and a returned instance is in the cache
    under the call's key. *)
Lemma load_step (p : option string) (w w1 : World)
    (r : result FloorPlanSegmentationModel) :
  load_floorplan_model torch p w = (r, w1) ->
  _floorplan_model_cache w ⊆ _floorplan_model_cache w1 /\
  (forall m, r = Ok m -> _floorplan_model_cache w1 !! cache_key p = Some m).
Proof.
  destruct (_floorplan_model_cache w !! cache_key p) as [m0|] eqn:E.
  - rewrite (load_hit _ _ _ E). intros [= <- <-]. split; [reflexivity|].
    now intros m [= <-].
  - rewrite (load_miss _ _ E).
    destruct (__init__ torch p None 512 w) as [[m|e] w0] eqn:Hinit;
      destruct (init_frame _ _ _ _ _ _ Hinit) as (Hc & _ & _);
      intros [= <- <-]; simpl.
    + rewrite Hc. split; [now apply insert_subseteq|].
      intros m' [= <-]. apply lookup_insert_eq.
    + rewrite Hc. split; [reflexivity | discriminate].
Qed.

Lemma load_wf (p : option string) (w w1 : World)
    (r : result FloorPlanSegmentationModel) :
  cache_wf w ->
  load_floorplan_model torch p w = (r, w1) ->
  cache_wf w1.
Proof.
  intros [Hlt Hinj].
  destruct (_floorplan_model_cache w !! cache_key p) as [m0|] eqn:E.
  - rewrite (load_hit _ _ _ E). intros [= <- <-]. now split.
  - rewrite (load_miss _ _ E).
    destruct (__init__ torch p None 512 w) as [[m|e] w0] eqn:Hinit;
      destruct (init_frame _ _ _ _ _ _ Hinit) as (Hc & Hle & Hid);
      intros [= <- <-]; simpl.
    + destruct (Hid m eq_refl) as [Hm Hn]. split; simpl; rewrite Hc.
      * intros k m' Hk. rewrite Hn.
        apply lookup_insert_Some in Hk as [[_ <-] | [_ Hk]]; [lia|].
        apply Hlt in Hk. lia.
      * intros k1 k2 m1 m2 H1 H2 Hobj.
        apply lookup_insert_Some in H1 as [[<- <-] | [Hn1 H1]];
          apply lookup_insert_Some in H2 as [[<- <-] | [Hn2 H2]]; auto.
        -- apply Hlt in H2. lia.
        -- apply Hlt in H1. lia.
        -- eauto.
    + split; rewrite Hc.
      * intros k m' Hk. apply Hlt in Hk. lia.
      * exact Hinj.
Qed.

(** A sequence of calls keeps every entry, and whatever a call returned
    is still in the cache, under that call's key, at the end. *)
Lemma lookups_cached (paths : list (option string)) (w : World) :
  _floorplan_model_cache w ⊆ _floorplan_model_cache (snd (lookups torch paths w)) /\
  (forall i p m,
      paths !! i = Some p ->
      fst (lookups torch paths w) !! i = Some (Ok m) ->
      _floorplan_model_cache (snd (lookups torch paths w)) !! cache_key p = Some m).
Proof.
  revert w. induction paths as [|p0 paths IH]; intros w; simpl.
  - split; [reflexivity|]. intros i p m H. now rewrite lookup_nil in H.
  - destruct (load_floorplan_model torch p0 w) as [r w1] eqn:Hload.
    destruct (load_step _ _ _ _ Hload) as [Hsub Hstored].
    specialize (IH w1).
    destruct (lookups torch paths w1) as [rs w2] eqn:Hrest; simpl in *.
    destruct IH as [IHsub IHres].
    split; [etransitivity; eassumption|].
    intros [|i] p m Hp Hr; simpl in *.
    + injection Hp as <-. injection Hr as ->.
      eapply lookup_weaken; [apply Hstored; reflexivity | exact IHsub].
    + eauto.
Qed.

Lemma lookups_wf (paths : list (option string)) (w : World) :
  cache_wf w -> cache_wf (snd (lookups torch paths w)).
Proof.
  revert w. induction paths as [|p0 paths IH]; intros w Hwf; simpl; [exact Hwf|].
  destruct (load_floorplan_model torch p0 w) as [r w1] eqn:Hload.
  specialize (IH w1 (load_wf _ _ _ _ Hwf Hload)).
  now destruct (lookups torch paths w1) as [rs w2].
Qed.

(** Once a key is in the cache, every later call with that key returns
    the stored instance. *)
Lemma lookups_hit (paths : list (option string)) (w : World) (k : string)
    (m : FloorPlanSegmentationModel) :
  _floorplan_model_cache w !! k = Some m ->
  forall j q, paths !! j = Some q -> cache_key q = k ->
    fst (lookups torch paths w) !! j = Some (Ok m).
Proof.
  revert w. induction paths as [|p0 paths IH]; intros w Hk j q Hq Hkey.
  - now rewrite lookup_nil in Hq.
  - simpl.
    destruct (load_floorplan_model torch p0 w) as [r w1] eqn:Hload.
    destruct (load_step _ _ _ _ Hload) as [Hsub _].
    pose proof (lookup_weaken _ _ _ _ Hk Hsub) as Hk1.
    specialize (IH w1 Hk1).
    destruct (lookups torch paths w1) as [rs w2] eqn:Hrest; simpl in *.
    destruct j as [|j]; simpl in *.
    + injection Hq as ->. subst k.
      rewrite (load_hit _ _ _ Hk) in Hload. now injection Hload as <- _.
    + eauto.
Qed.

(** A call that returned fixes what every later call with the same key
    returns. *)
Lemma lookups_later (paths : list (option string)) (w : World) :
  forall i j p q m,
    (i < j)%nat ->
    paths !! i = Some p -> paths !! j = Some q ->
    cache_key p = cache_key q ->
    fst (lookups torch paths w) !! i = Some (Ok m) ->
    fst (lookups torch paths w) !! j = Some (Ok m).
Proof.
  revert w. induction paths as [|p0 paths IH]; intros w i j p q m Hij Hp Hq Hkey Hi.
  - now rewrite lookup_nil in Hp.
  - simpl in Hi |- *.
    destruct (load_floorplan_model torch p0 w) as [r w1] eqn:Hload.
    destruct (load_step _ _ _ _ Hload) as [_ Hstored].
    pose proof (lookups_hit paths w1) as Hhit.
    specialize (IH w1).
    destruct (lookups torch paths w1) as [rs w2] eqn:Hrest; simpl in *.
    destruct j as [|j]; [lia|]. simpl in *.
    destruct i as [|i]; simpl in *.
    + injection Hp as ->. injection Hi as ->.
      eapply Hhit; [apply Hstored; reflexivity | exact Hq | now symmetry].
    + eapply (IH i j p q m); auto. lia.
Qed.

(** C9 (amended): over any sequence of lookups no cache entry is ever lost,
    and once a call has returned an instance every later call with the same
    key returns that identical instance.  A call whose key is absent runs
    the constructor once, with the caller's path, the default device and
    image size 512.  When every call into torch succeeds, the instance it
    stores and returns is a new object placed on "cuda" when available and
    on "cpu" otherwise, which carries the weights of the weights file when
    that file exists and its random initialisation, after a warning, when
    it does not.  When the constructor raises, the call raises the same
    exception and nothing is stored.  A call whose key is present returns
    the stored instance and changes nothing. *)
Theorem model_cache_get_or_create (paths : list (option string)) (w : World) :
  _floorplan_model_cache w ⊆ _floorplan_model_cache (snd (lookups torch paths w)) /\
  (forall i j p q m,
      (i < j)%nat ->
      paths !! i = Some p -> paths !! j = Some q ->
      cache_key p = cache_key q ->
      fst (lookups torch paths w) !! i = Some (Ok m) ->
      fst (lookups torch paths w) !! j = Some (Ok m)) /\
  (forall p,
      _floorplan_model_cache w !! cache_key p = None ->
      TORCH_AVAILABLE torch = true ->
      ResNetUNet torch = Ok tt ->
      (path_exists torch (weights_path torch p) = true ->
       load_state_dict torch (weights_path torch p) (pick_device torch None) = Ok tt) ->
      model_to torch (pick_device torch None) = Ok tt ->
      tensor_to torch (pick_device torch None) = Ok tt ->
      let m :=
        Build_FloorPlanSegmentationModel (next_obj w)
          (if cuda_is_available torch then "cuda" else "cpu") 512
          (if path_exists torch (weights_path torch p)
           then Some (weights_path torch p) else None) in
      load_floorplan_model torch p w
      = (Ok m,
         {| _floorplan_model_cache := <[cache_key p := m]> (_floorplan_model_cache w);
            next_obj := S (next_obj w);
            stdout :=
              (stdout w ++
               [ if path_exists torch (weights_path torch p)
                 then ("[FloorPlanModel] Loading weights from "
                         ++ weights_path torch p)%string
                 else ("[FloorPlanModel] WARNING: No weights at "
                         ++ weights_path torch p)%string;
                 ("[FloorPlanModel] Initialized on "
                    ++ (if cuda_is_available torch then "cuda" else "cpu"))%string
               ])%list |})) /\
  (forall p e w1,
      _floorplan_model_cache w !! cache_key p = None ->
      __init__ torch p None 512 w = (Raise e, w1) ->
      load_floorplan_model torch p w = (Raise e, w1) /\
      _floorplan_model_cache w1 = _floorplan_model_cache w) /\
  (forall p m,
      _floorplan_model_cache w !! cache_key p = Some m ->
      load_floorplan_model torch p w = (Ok m, w)).
Proof.
  destruct (lookups_cached paths w) as [Hsub _].
  split; [exact Hsub|]. split; [apply lookups_later|]. split; [|split].
  - intros p Hmiss Ht Hnet Hload Hto Htensor. cbv zeta.
    rewrite (load_miss _ _ Hmiss).
    rewrite (init_completes p None 512 w Ht Hnet Hload Hto Htensor).
    reflexivity.
  - intros p e w1 Hmiss Hinit.
    rewrite (load_miss _ _ Hmiss), Hinit. split; [reflexivity|].
    now destruct (init_frame _ _ _ _ _ _ Hinit) as (Hc & _ & _).
  - intros p m. apply load_hit.
Qed.

End CacheFacts.

Section CacheKeys.
Import FloorplanModel.
Variable torch : Torch.

Lemma string_length_app (a b : string) :
  String.length (a ++ b) = (String.length a + String.length b)%nat.
Proof. induction a as [|c a IH]; simpl; [reflexivity | now rewrite IH]. Qed.

(** A truthy path is its own key. *)
Lemma cache_key_truthy (p : string) : p <> "" -> cache_key (Some p) = p.
Proof.
  intros Hp. unfold cache_key.
  destruct (String.eqb_spec p ""); [contradiction | reflexivity].
Qed.

(** The path of the default weights file is not the key "default". *)
Lemma default_weights_path_key :
  cache_key (Some (get_model_cache_dir torch ++ "/best_model.pt")) <> "default".
Proof.
  rewrite cache_key_truthy.
  - intros H. apply (f_equal String.length) in H.
    rewrite string_length_app in H. simpl in H. lia.
  - intros H. apply (f_equal String.length) in H.
    rewrite string_length_app in H. simpl in H. lia.
Qed.

Lemma initial_world_wf : cache_wf initial_world.
Proof.
  split; simpl.
  - intros k m H. now rewrite lookup_empty in H.
  - intros k1 k2 m1 m2 H. now rewrite lookup_empty in H.
Qed.

(** C10 (amended): [None] and the empty string both become the key
    "default"; every other path string is its own key, and the path of the
    default weights file is a key different from "default".  In any
    sequence of lookups from a well-formed cache, two calls that return,
    return the identical instance when their keys are equal and separately
    constructed instances (distinct objects) when their keys differ. *)
Theorem cache_key_normalisation (paths : list (option string)) (w : World) :
  cache_wf w ->
  cache_key None = "default" /\
  cache_key (Some "") = "default" /\
  (forall p, p <> "" -> cache_key (Some p) = p) /\
  cache_key (Some (get_model_cache_dir torch ++ "/best_model.pt")) <> "default" /\
  (forall i j p q mi mj,
      paths !! i = Some p -> paths !! j = Some q ->
      fst (lookups torch paths w) !! i = Some (Ok mi) ->
      fst (lookups torch paths w) !! j = Some (Ok mj) ->
      (cache_key p = cache_key q -> mi = mj) /\
      (cache_key p <> cache_key q -> obj_id mi <> obj_id mj)).
Proof.
  intros Hwf.
  split; [reflexivity|]. split; [reflexivity|].
  split; [apply cache_key_truthy|]. split; [apply default_weights_path_key|].
  intros i j p q mi mj Hp Hq Hi Hj.
  destruct (lookups_cached torch paths w) as [_ Hres].
  pose proof (Hres _ _ _ Hp Hi) as H1.
  pose proof (Hres _ _ _ Hq Hj) as H2.
  destruct (lookups_wf torch paths w Hwf) as [_ Hinj].
  split.
  - intros Hkey. rewrite Hkey in H1. congruence.
  - intros Hkey Hobj. apply Hkey. eapply Hinj; eassumption.
Qed.

End CacheKeys.

(** Worked instance of C9 on a fresh process with the weights file in
    place and no GPU: the first lookup builds the instance on "cpu" from the
    file and stores it under "default"; of four lookups, the third returns
    the instance of the first. *)
Lemma model_cache_get_or_create_witness :
  let m0 :=
    {| FloorplanModel.obj_id := 0; FloorplanModel.device := "cpu";
       FloorplanModel.image_size := 512;
       FloorplanModel.weights := Some "/app/gem_ai/models/best_model.pt" |} in
  FloorplanModel.load_floorplan_model Fixtures.torch_ok None
    FloorplanModel.initial_world
  = (Ok m0,
     {| FloorplanModel._floorplan_model_cache := <["default" := m0]> ∅;
        FloorplanModel.next_obj := 1;
        FloorplanModel.stdout :=
          [ "[FloorPlanModel] Loading weights from /app/gem_ai/models/best_model.pt";
            "[FloorPlanModel] Initialized on cpu" ] |}) /\
  fst (FloorplanModel.lookups Fixtures.torch_ok
         [None; Some "a.pt"; None; Some "a.pt"] FloorplanModel.initial_world)
    !! 2%nat = Some (Ok m0).
Proof.
  cbv zeta. split.
  - apply (proj1 (proj2 (proj2 (model_cache_get_or_create Fixtures.torch_ok []
                                  FloorplanModel.initial_world))) None);
      reflexivity.
  - apply (proj1 (proj2 (model_cache_get_or_create Fixtures.torch_ok
                           [None; Some "a.pt"; None; Some "a.pt"]
                           FloorplanModel.initial_world))
             0%nat 2%nat None None);
      [lia | reflexivity | reflexivity | reflexivity | vm_compute; reflexivity].
Defined.

(** C9 as stated fails in two ways.  With no weights file, the first
    lookup for a key stores and returns an instance that loaded no weights:
    it printed the warning and kept its random initialisation.  With a
    weights file that cannot be loaded, the first lookup stores nothing: it
    raises, the cache stays empty, and the second lookup runs the
    constructor again. *)
Lemma first_lookup_may_load_or_store_nothing :
  (exists m,
     FloorplanModel.lookups Cases.torch_no_weights [None]
       FloorplanModel.initial_world
     = ([Ok m],
        {| FloorplanModel._floorplan_model_cache := {[ "default" := m ]};
           FloorplanModel.next_obj := 1;
           FloorplanModel.stdout :=
             [ "[FloorPlanModel] WARNING: No weights at /app/gem_ai/models/best_model.pt";
               "[FloorPlanModel] Initialized on cuda" ] |}) /\
     FloorplanModel.weights m = None) /\
  FloorplanModel.lookups Cases.torch_bad_weights [None; None]
    FloorplanModel.initial_world
  = ([ Raise (Exception "RuntimeError" "size mismatch");
       Raise (Exception "RuntimeError" "size mismatch") ],
     {| FloorplanModel._floorplan_model_cache := ∅;
        FloorplanModel.next_obj := 2;
        FloorplanModel.stdout :=
          [ "[FloorPlanModel] Loading weights from /app/gem_ai/models/best_model.pt";
            "[FloorPlanModel] Loading weights from /app/gem_ai/models/best_model.pt" ] |}).
Proof.
  split.
  - eexists. split; [vm_compute; reflexivity | reflexivity].
  - vm_compute. reflexivity.
Qed.

(** Worked instance of C10 on a fresh process: [None] and [""] share one
    instance, the explicit default path gets its own. *)
Lemma cache_key_normalisation_witness :
  FloorplanModel.cache_wf FloorplanModel.initial_world /\
  exists m0 m1,
    fst (FloorplanModel.lookups Fixtures.torch_ok
           [None; Some ""; Some "/app/gem_ai/models/best_model.pt"]
           FloorplanModel.initial_world)
    = [Ok m0; Ok m0; Ok m1] /\
    FloorplanModel.obj_id m0 <> FloorplanModel.obj_id m1.
Proof.
  split; [apply initial_world_wf|].
  eexists _, _. split; [vm_compute; reflexivity|].
  apply (proj2 (proj2 (proj2 (proj2 (cache_key_normalisation Fixtures.torch_ok
            [None; Some ""; Some "/app/gem_ai/models/best_model.pt"]
            FloorplanModel.initial_world initial_world_wf))))
           0%nat 2%nat None (Some "/app/gem_ai/models/best_model.pt"));
    try (vm_compute; reflexivity).
  vm_compute. discriminate.
Defined.

(** C10 as stated fails for the path string "default": it is truthy, yet
    its key is the key of the falsy arguments, and the lookup returns the
    instance built for [None] instead of constructing one. *)
Lemma default_named_path_shares_instance :
  "default" <> "" /\
  FloorplanModel.cache_key (Some "default") = FloorplanModel.cache_key None /\
  exists m,
    FloorplanModel.lookups Fixtures.torch_ok [None; Some "default"]
      FloorplanModel.initial_world
    = ([Ok m; Ok m],
       {| FloorplanModel._floorplan_model_cache := {[ "default" := m ]};
          FloorplanModel.next_obj := 1;
          FloorplanModel.stdout :=
            [ "[FloorPlanModel] Loading weights from /app/gem_ai/models/best_model.pt";
              "[FloorPlanModel] Initialized on cpu" ] |}).
Proof.
  split; [discriminate|]. split; [reflexivity|].
  eexists. vm_compute. reflexivity.
Qed.

(* ===================================================================== *)
(** * Properties of the primary detection strategy                       *)
(* ===================================================================== *)

Section PrimaryStrategy.
Import FloorplanModel.
Variable torch : Torch.
Variable cv2 : OpenCV.
Variable predict : FloorPlanSegmentationModel -> Image -> result Mask.

(** What the handler of the [try] leaves behind for an exception [e]
    raised in world [w1]. *)
Lemma detect_handler (image : Image) (model : option FloorPlanSegmentationModel)
    (min_area : Q) (w w1 : World) (e : exn) :
  TORCH_AVAILABLE torch = true ->
  detect_try_body torch cv2 predict image model min_area w = (Raise e, w1) ->
  detect_rooms_floorplan_model torch cv2 predict image model min_area w =
  (Ok [], snd (print ("[FloorPlanModel] Detection failed: " ++ exn_str e) w1)).
Proof.
  intros Ht Hbody. unfold detect_rooms_floorplan_model, try_except.
  rewrite Ht. simpl. rewrite Hbody. reflexivity.
Qed.

(** C4 (amended): the primary strategy always returns a room list and never
    raises.  When [TORCH_AVAILABLE] is [False] it returns the empty list at
    once, printing nothing; when it is [True], the result of the [try] body
    is returned unchanged, and an exception raised in the body -- while loading the
    model, predicting, or extracting rooms -- is reported on standard
    output and replaced by the empty list. *)
Theorem detect_absorbs_failures (image : Image)
    (model : option FloorPlanSegmentationModel) (min_area : Q) (w : World) :
  exists rooms w',
    detect_rooms_floorplan_model torch cv2 predict image model min_area w
      = (Ok rooms, w') /\
    (TORCH_AVAILABLE torch = false -> rooms = [] /\ w' = w) /\
    (TORCH_AVAILABLE torch = true ->
       match detect_try_body torch cv2 predict image model min_area w with
       | (Ok found, w1) => rooms = found /\ w' = w1
       | (Raise e, w1) =>
           rooms = [] /\
           w' = snd (print ("[FloorPlanModel] Detection failed: " ++ exn_str e) w1)
       end) /\
    (TORCH_AVAILABLE torch = true ->
       (forall e w1,
           model = None ->
           load_floorplan_model torch None w = (Raise e, w1) ->
           rooms = [] /\
           stdout w' = (stdout w1 ++ [("[FloorPlanModel] Detection failed: " ++ exn_str e)%string])%list) /\
       (forall m e,
           model = Some m ->
           predict m image = Raise e ->
           rooms = [] /\
           stdout w' = (stdout w ++ [("[FloorPlanModel] Detection failed: " ++ exn_str e)%string])%list) /\
       (forall m mask e,
           model = Some m ->
           predict m image = Ok mask ->
           extract_rooms_from_mask cv2 mask min_area = Raise e ->
           rooms = [] /\
           stdout w' = (stdout w ++ [("[FloorPlanModel] Detection failed: " ++ exn_str e)%string])%list)).
Proof.
  destruct (TORCH_AVAILABLE torch) eqn:Ht.
  - destruct (detect_try_body torch cv2 predict image model min_area w)
      as [[found|e] w1] eqn:Hbody.
    + exists found, w1. split; [|split; [discriminate | split]].
      * unfold detect_rooms_floorplan_model, try_except.
        rewrite Ht. simpl. now rewrite Hbody.
      * intros _. now split.
      * intros _. unfold detect_try_body, bind, lift, ret in Hbody.
        split; [|split].
        -- intros e w2 -> Hload. rewrite Hload in Hbody. discriminate.
        -- intros m e -> Hp. simpl in Hbody. rewrite Hp in Hbody. discriminate.
        -- intros m mask e -> Hp He. simpl in Hbody. rewrite Hp, He in Hbody.
           discriminate.
    + exists [], (snd (print ("[FloorPlanModel] Detection failed: " ++ exn_str e) w1)).
      split; [|split; [discriminate | split]].
      * now apply detect_handler.
      * intros _. now split.
      * intros _. unfold detect_try_body, bind, lift, ret in Hbody.
        split; [|split].
        -- intros e' w2 -> Hload. rewrite Hload in Hbody.
           injection Hbody as <- <-. now split.
        -- intros m e' -> Hp. simpl in Hbody. rewrite Hp in Hbody.
           injection Hbody as <- <-. now split.
        -- intros m mask e' -> Hp He. simpl in Hbody. rewrite Hp, He in Hbody.
           injection Hbody as <- <-. now split.
  - exists [], w. split; [|split; [|split]].
    + unfold detect_rooms_floorplan_model. now rewrite Ht.
    + intros _. now split.
    + discriminate.
    + discriminate.
Qed.

End PrimaryStrategy.

(** Worked instances of C4: a failing prediction, a failing contour search
    and a failing model construction are each absorbed and reported. *)
Lemma detect_absorbs_failures_witness :
  FloorplanModel.detect_rooms_floorplan_model Fixtures.torch_ok Fixtures.cv2_regions
    Fixtures.predict_fails Fixtures.blank_image None FloorplanModel.default_min_area
    FloorplanModel.initial_world
  = (Ok [],
     {| FloorplanModel._floorplan_model_cache :=
          {[ "default" :=
               {| FloorplanModel.obj_id := 0; FloorplanModel.device := "cpu";
                  FloorplanModel.image_size := 512;
                  FloorplanModel.weights := Some "/app/gem_ai/models/best_model.pt" |} ]};
        FloorplanModel.next_obj := 1;
        FloorplanModel.stdout :=
          [ "[FloorPlanModel] Loading weights from /app/gem_ai/models/best_model.pt";
            "[FloorPlanModel] Initialized on cpu";
            "[FloorPlanModel] Detection failed: out of memory" ] |}) /\
  fst (FloorplanModel.detect_rooms_floorplan_model Fixtures.torch_ok Fixtures.cv2_broken
         Fixtures.predict_bedroom Fixtures.blank_image None
         FloorplanModel.default_min_area FloorplanModel.initial_world)
  = Ok [] /\
  exists rooms w',
    FloorplanModel.detect_rooms_floorplan_model Fixtures.torch_ok Fixtures.cv2_regions
      Fixtures.predict_bedroom Fixtures.blank_image None FloorplanModel.default_min_area
      FloorplanModel.initial_world
    = (Ok rooms, w').
Proof.
  split; [vm_compute; reflexivity|]. split; [vm_compute; reflexivity|].
  destruct (detect_absorbs_failures Fixtures.torch_ok Fixtures.cv2_regions
              Fixtures.predict_bedroom Fixtures.blank_image None
              FloorplanModel.default_min_area FloorplanModel.initial_world)
    as (rooms & w' & H & _).
  exists rooms, w'. exact H.
Defined.

(** C4 as stated fails on the branch where [TORCH_AVAILABLE] is [False]:
    the strategy returns the empty list but prints nothing. *)
Lemma detect_unavailable_is_silent :
  FloorplanModel.TORCH_AVAILABLE Fixtures.torch_absent = false /\
  FloorplanModel.detect_rooms_floorplan_model Fixtures.torch_absent
    Fixtures.cv2_regions Fixtures.predict_bedroom Fixtures.blank_image None
    FloorplanModel.default_min_area FloorplanModel.initial_world
  = (Ok [], FloorplanModel.initial_world) /\
  FloorplanModel.stdout FloorplanModel.initial_world = [].
Proof. repeat split. Qed.

(* ===================================================================== *)
(** * Properties of the geometric projection                             *)
(* ===================================================================== *)

Section Projection.
Import Main.

(** The projection in any float arithmetic: once the divisor is not zero
    and the integer operands convert, every field is the quotient the
    source writes. *)
Lemma project_generic (F : PyFloat) (H : Z) (ppm : num) (r : PixelRoom)
    (fx fy fw fh : num) :
  is_zero ppm = false ->
  of_int (px r) = Ok fx ->
  of_int (H - py r - ph r) = Ok fy ->
  of_int (pw r) = Ok fw ->
  of_int (ph r) = Ok fh ->
  project H ppm r =
  Ok {| mx := fdiv fx ppm; my := fdiv fy ppm;
        width := fdiv fw ppm; height := fdiv fh ppm;
        area_m2 := fmul (fdiv fw ppm) (fdiv fh ppm) |}.
Proof.
  intros Hz Hx Hy Hw Hh. unfold project, int_truediv, truediv.
  rewrite Hx, Hy, Hw, Hh. simpl. rewrite Hz. reflexivity.
Qed.

Lemma Q_positive_not_zero (ppm : Q) :
  (0 < ppm)%Q -> is_zero (PyFloat:=QFloat) ppm = false.
Proof.
  intros Hpos. simpl. destruct (Qeq_bool ppm 0) eqn:E; [|reflexivity].
  apply Qeq_bool_eq in E. rewrite E in Hpos. now apply Qlt_irrefl in Hpos.
Qed.

(** A positive double is not [== 0.0]. *)
Lemma binary64_positive_not_zero (ppm : float) :
  PrimFloat.ltb 0 ppm = true -> is_zero (PyFloat:=Binary64) ppm = false.
Proof.
  simpl. rewrite FloatAxioms.ltb_spec, FloatAxioms.eqb_spec.
  change (Prim2SF 0) with (S754_zero false).
  destruct (Prim2SF ppm) as [s|s| |s m e]; simpl;
    try discriminate; try reflexivity;
    destruct s; try discriminate; reflexivity.
Qed.

(** In exact arithmetic every integer converts. *)
Lemma project_exact (H : Z) (ppm : Q) (r : PixelRoom) :
  (0 < ppm)%Q ->
  project (F:=QFloat) H ppm r =
  Ok {| mx := (inject_Z (px r) / ppm)%Q;
        my := (inject_Z (H - py r - ph r) / ppm)%Q;
        width := (inject_Z (pw r) / ppm)%Q;
        height := (inject_Z (ph r) / ppm)%Q;
        area_m2 := ((inject_Z (pw r) / ppm) * (inject_Z (ph r) / ppm))%Q |}.
Proof.
  intros Hpos.
  apply (project_generic QFloat); auto using Q_positive_not_zero.
Qed.

(** C1 (amended): whenever [ppm] is not zero -- in particular when it is
    positive -- and the integer operands convert to [float], the projection
    returns [x/ppm], [(H - y - h)/ppm], [w/ppm], [h/ppm] and the product of
    the last two.  For (100, 50, 80, 40), H = 600, ppm = 100 this is
    (1, 5.1, 0.8, 0.4, 0.32) in exact arithmetic; in binary64 the four
    coordinates are the doubles 1.0, 5.1, 0.8, 0.4 and the area is
    0.32000000000000006, one unit in the last place above the double
    0.32. *)
Theorem project_formula :
  (forall (F : PyFloat) (H : Z) (ppm : num) (r : PixelRoom) (fx fy fw fh : num),
      is_zero ppm = false ->
      of_int (px r) = Ok fx ->
      of_int (H - py r - ph r) = Ok fy ->
      of_int (pw r) = Ok fw ->
      of_int (ph r) = Ok fh ->
      project H ppm r =
      Ok {| mx := fdiv fx ppm; my := fdiv fy ppm;
            width := fdiv fw ppm; height := fdiv fh ppm;
            area_m2 := fmul (fdiv fw ppm) (fdiv fh ppm) |}) /\
  (forall (H : Z) (ppm : Q) (r : PixelRoom),
      (0 < ppm)%Q ->
      project (F:=QFloat) H ppm r =
      Ok {| mx := (inject_Z (px r) / ppm)%Q;
            my := (inject_Z (H - py r - ph r) / ppm)%Q;
            width := (inject_Z (pw r) / ppm)%Q;
            height := (inject_Z (ph r) / ppm)%Q;
            area_m2 := ((inject_Z (pw r) / ppm) * (inject_Z (ph r) / ppm))%Q |}) /\
  (forall ppm : float,
      PrimFloat.ltb 0 ppm = true -> is_zero (PyFloat:=Binary64) ppm = false) /\
  (exists m : MetricRoom (F:=QFloat),
      project (F:=QFloat) 600 100%Q Fixtures.scenario3 = Ok m /\
      (mx m == 1)%Q /\ (width m == 0.8)%Q /\ (height m == 0.4)%Q /\
      (my m == 5.1)%Q /\ (area_m2 m == 0.32)%Q) /\
  project (F:=Binary64) 600 100%float Fixtures.scenario3 =
  Ok (Build_MetricRoom (F:=Binary64)
        1%float 5.1%float 0.8%float 0.4%float 0.32000000000000006%float).
Proof.
  split; [exact project_generic|]. split; [exact project_exact|].
  split; [exact binary64_positive_not_zero|]. split.
  - eexists. split; [vm_compute; reflexivity|]. simpl.
    repeat split; reflexivity.
  - reflexivity.
Qed.

(** C8: in exact arithmetic, projecting a pixel rectangle and inverting
    the result with the same [H] and [ppm > 0] gives back [x], [y], [w]
    and [h]; recovering [y] with the original [h] instead of the recovered
    one gives the same. *)
Theorem metric_roundtrip (H : Z) (ppm : Q) (r : PixelRoom) :
  (0 < ppm)%Q ->
  exists m : MetricRoom (F:=QFloat),
    project (F:=QFloat) H ppm r = Ok m /\
    (let '(x, y, w, h) := Inverse.unproject H ppm m in
     x == inject_Z (px r) /\ y == inject_Z (py r) /\
     w == inject_Z (pw r) /\ h == inject_Z (ph r))%Q /\
    (inject_Z H - my m * ppm - inject_Z (ph r) == inject_Z (py r))%Q.
Proof.
  intros Hpos. eexists. split; [now apply project_exact|].
  assert (Hne : ~ (ppm == 0)%Q) by (intros E; rewrite E in Hpos; now apply Qlt_irrefl in Hpos).
  unfold Inverse.unproject; simpl.
  unfold Z.sub. rewrite !inject_Z_plus, !inject_Z_opp.
  repeat split; field; exact Hne.
Qed.

(** The round trip of the worked example in binary64: the recovered
    rectangle is within 2^-30 of (100, 50, 80, 40). *)
Lemma roundtrip_binary64_example :
  let near (a b : float) := PrimFloat.ltb (PrimFloat.abs (PrimFloat.sub a b)) 0x1p-30 in
  let x := PrimFloat.mul 1 100 in
  let w := PrimFloat.mul 0.8 100 in
  let h := PrimFloat.mul 0.4 100 in
  let y := PrimFloat.sub (PrimFloat.sub 600 (PrimFloat.mul 5.1 100)) h in
  (near x 100 && near y 50 && near w 80 && near h 40)%float = true.
Proof. reflexivity. Qed.

End Projection.

(** Worked instance of C1: the example rectangle in exact arithmetic. *)
Lemma project_formula_witness :
  (0 < 100)%Q /\
  Main.project (F:=QFloat) 600 100%Q Fixtures.scenario3 =
  Ok {| Main.mx := (inject_Z 100 / 100)%Q;
        Main.my := (inject_Z (600 - 50 - 40) / 100)%Q;
        Main.width := (inject_Z 80 / 100)%Q;
        Main.height := (inject_Z 40 / 100)%Q;
        Main.area_m2 := ((inject_Z 80 / 100) * (inject_Z 40 / 100))%Q |}.
Proof.
  split; [reflexivity|].
  apply (proj1 (proj2 project_formula) 600 100%Q Fixtures.scenario3).
  reflexivity.
Defined.

(** C1 as stated fails in the arithmetic the code runs in: the area of the
    example is not the double 0.32 (Python's [==] answers False). *)
Lemma project_binary64_area_is_not_0_32 :
  exists m : Main.MetricRoom (F:=Binary64),
    Main.project (F:=Binary64) 600 100%float Fixtures.scenario3 = Ok m /\
    Main.area_m2 m = 0.32000000000000006%float /\
    PrimFloat.eqb (Main.area_m2 m) 0.32%float = false /\
    Main.area_m2 m <> 0.32%float.
Proof.
  exists (Main.Build_MetricRoom (F:=Binary64)
            1%float 5.1%float 0.8%float 0.4%float 0.32000000000000006%float).
  split; [reflexivity|]. split; [reflexivity|]. split; [reflexivity|].
  intros E. apply (f_equal (fun f => PrimFloat.eqb f 0.32%float)) in E.
  change (false = true) in E. discriminate E.
Qed.

(** Worked instance of C8: the example rectangle. *)
Lemma metric_roundtrip_witness :
  (0 < 100)%Q /\
  exists m : Main.MetricRoom (F:=QFloat),
    Main.project (F:=QFloat) 600 100%Q Fixtures.scenario3 = Ok m /\
    (let '(x, y, w, h) := Inverse.unproject 600 100%Q m in
     x == inject_Z 100 /\ y == inject_Z 50 /\
     w == inject_Z 80 /\ h == inject_Z 40)%Q /\
    (inject_Z 600 - Main.my m * 100 - inject_Z 40 == inject_Z 50)%Q.
Proof.
  split; [reflexivity|].
  apply (metric_roundtrip 600 100%Q Fixtures.scenario3). reflexivity.
Defined.

(* ===================================================================== *)
(** * Properties of the detection orchestrator and the request handler   *)
(* ===================================================================== *)

Section Orchestrator.
Import Main.
Context {F : PyFloat} {O : PyFloatOrd F}.
Variable env : Collaborators.

(** What the detection stage does, outcome by outcome of the two
    detectors. *)
Lemma detect_stage_run (image : Image) (gray : GrayImage) (use_sam : bool)
    (job_dir : string) (tr : Trace) :
  let flag := use_sam && SAM_AVAILABLE env in
  let started :=
    [ Print "[ANALYZE] Starting room detection with floorplan model...";
      CallDetectRoomsAdvanced "floorplan" flag job_dir ] in
  let fell_back :=
    [ Print "[ANALYZE] Floorplan model found no rooms, falling back to hybrid...";
      CallDetectRooms flag job_dir ] in
  let done (rooms : list PixelRoom) :=
    [ Print ("[ANALYZE] Room detection complete: "
             ++ str_nat (length rooms) ++ " rooms found") ] in
  detect_stage env image gray use_sam job_dir tr =
  match detect_rooms_advanced env image gray "floorplan" flag job_dir with
  | Raise e => (Raise e, tr ++ started)
  | Ok (r :: rs) => (Ok (r :: rs), tr ++ started ++ done (r :: rs))
  | Ok [] =>
      match detect_rooms env image gray flag job_dir with
      | Raise e => (Raise e, tr ++ started ++ fell_back)
      | Ok rooms => (Ok rooms, tr ++ started ++ fell_back ++ done rooms)
      end
  end%list.
Proof.
  cbv zeta. unfold detect_stage, bind, emit, lift, ret. simpl.
  destruct (detect_rooms_advanced env image gray "floorplan" _ job_dir)
    as [[|r rs]|e]; simpl.
  - destruct (detect_rooms env image gray _ job_dir) as [rooms|e]; simpl;
      now rewrite <- !app_assoc.
  - now rewrite <- !app_assoc.
  - now rewrite <- !app_assoc.
Qed.

(** ** A small logic of appended events. *)

Lemma emits_ret {A} (P : Event -> Prop) (a : A) : emits_only P (ret a).
Proof. intros tr. exists []. split; [now rewrite app_nil_r | constructor]. Qed.

Lemma emits_raise {A} (P : Event -> Prop) (e : exn) :
  emits_only P (raise e : M Trace A).
Proof. intros tr. exists []. split; [now rewrite app_nil_r | constructor]. Qed.

Lemma emits_lift {A} (P : Event -> Prop) (r : result A) : emits_only P (lift r).
Proof. intros tr. exists []. split; [now rewrite app_nil_r | constructor]. Qed.

Lemma emits_emit (P : Event -> Prop) (ev : Event) : P ev -> emits_only P (emit ev).
Proof. intros H tr. exists [ev]. split; [reflexivity | now constructor]. Qed.

Lemma emits_bind {A B} (P : Event -> Prop) (m : M Trace A) (k : A -> M Trace B) :
  emits_only P m ->
  (forall a tr tr', m tr = (Ok a, tr') -> emits_only P (k a)) ->
  emits_only P (bind m k).
Proof.
  intros Hm Hk tr. unfold bind.
  destruct (Hm tr) as (ev1 & E1 & P1).
  destruct (m tr) as [[a|e] tr1] eqn:Hrun; simpl in E1; subst tr1.
  - destruct (Hk a _ _ Hrun (tr ++ ev1)%list) as (ev2 & E2 & P2).
    exists (ev1 ++ ev2)%list. split.
    + now rewrite E2, app_assoc.
    + now apply Forall_app.
  - exists ev1. now split.
Qed.

Lemma emits_try {A} (P : Event -> Prop) (body : M Trace A)
    (catches : exn -> bool) (handler : exn -> M Trace A) :
  emits_only P body ->
  (forall e, emits_only P (handler e)) ->
  emits_only P (try_except body catches handler).
Proof.
  intros Hb Hh tr. unfold try_except.
  destruct (Hb tr) as (ev1 & E1 & P1).
  destruct (body tr) as [[a|e] tr1]; simpl in E1; subst tr1.
  - exists ev1. now split.
  - destruct (catches e).
    + destruct (Hh e (tr ++ ev1)%list) as (ev2 & E2 & P2).
      exists (ev1 ++ ev2)%list. split.
      * now rewrite E2, app_assoc.
      * now apply Forall_app.
    + exists ev1. now split.
Qed.

Lemma lift_returns {A} (r : result A) (a : A) (tr tr' : Trace) :
  lift r tr = (Ok a, tr') -> r = Ok a.
Proof. unfold lift. now intros [= -> _]. Qed.

Lemma analyze_hybrid_calls (contents : list Init.Byte.byte)
    (pixels_per_metre_arg : option num) (floor_height : num) (use_sam : bool)
    (building_name : string) :
  emits_only (hybrid_call_justified env contents use_sam)
    (analyze_floorplan env contents pixels_per_metre_arg floor_height use_sam
       building_name).
Proof.
  set (P := hybrid_call_justified env contents use_sam).
  assert (Hother : forall ev,
             (forall f d, ev <> CallDetectRooms f d) -> P ev).
  { intros ev Hev f d ->. now contradiction (Hev f d). }
  assert (Hemit : forall ev,
             (forall f d, ev <> CallDetectRooms f d) -> emits_only P (emit ev)).
  { intros ev Hev. apply emits_emit, Hother, Hev. }
  unfold analyze_floorplan.
  apply emits_bind; [apply Hemit; discriminate | intros _ _ _ _].
  apply emits_bind; [apply Hemit; discriminate | intros _ _ _ _].
  apply emits_try;
    [| intros e; destruct (is_HTTPException e); apply emits_raise].
  unfold analyze_body.
  apply emits_bind; [apply Hemit; discriminate | intros _ _ _ _].
  apply emits_bind; [apply Hemit; discriminate | intros _ _ _ _].
  destruct (imdecode env contents) as [image|] eqn:Himg; [|apply emits_raise].
  destruct (shape (cvtColor env image)) as [img_height img_width].
  apply emits_bind; [apply Hemit; discriminate | intros _ _ _ _].
  apply emits_bind.
  { unfold scale_stage. destruct pixels_per_metre_arg; [apply emits_ret|].
    apply emits_bind; [apply Hemit; discriminate | intros _ _ _ _].
    apply emits_bind; [apply emits_lift | intros; apply emits_ret]. }
  intros [ppm scale_info] _ _ _.
  apply emits_bind.
  { unfold detect_stage.
    apply emits_bind; [apply Hemit; discriminate | intros _ _ _ _].
    apply emits_bind; [apply Hemit; discriminate | intros _ _ _ _].
    apply emits_bind; [apply emits_lift | intros rooms tr tr' Hprimary].
    apply lift_returns in Hprimary.
    apply emits_bind.
    - destruct rooms as [|r rs]; [|apply emits_ret].
      apply emits_bind; [apply Hemit; discriminate | intros _ _ _ _].
      apply emits_bind; [|intros; apply emits_lift].
      apply emits_emit. intros f d [= <- <-]. eauto.
    - intros rooms' _ _ _.
      apply emits_bind; [apply Hemit; discriminate | intros; apply emits_ret]. }
  intros [|r rs] _ _ _; [apply emits_raise|].
  apply emits_bind; [apply emits_lift | intros rooms_m _ _ _].
  apply emits_bind; [apply emits_lift | intros spaces _ _ _].
  apply emits_bind; [apply Hemit; discriminate | intros _ _ _ _].
  apply emits_bind; [apply emits_lift | intros _ _ _ _].
  apply emits_bind; [apply Hemit; discriminate | intros _ _ _ _].
  apply emits_bind; [apply emits_lift | intros _ _ _ _].
  apply emits_bind; [apply Hemit; discriminate | intros _ _ _ _].
  apply emits_bind; [apply Hemit; discriminate | intros; apply emits_ret].
Qed.

(** C2: when the trained-model strategy returns the empty list, the
    detection stage ends with exactly what the hybrid detector returns for
    the same colour image, grayscale image and flag; and the hybrid
    detector is called in that case only -- in the stage and in the whole
    request. *)
Theorem fallback_equivalence (image : Image) (gray : GrayImage)
    (use_sam : bool) (job_dir : string) (tr : Trace) :
  let flag := use_sam && SAM_AVAILABLE env in
  let primary := detect_rooms_advanced env image gray "floorplan" flag job_dir in
  (exists events : Trace,
    snd (detect_stage env image gray use_sam job_dir tr) = (tr ++ events)%list /\
    (primary = Ok [] ->
       fst (detect_stage env image gray use_sam job_dir tr)
         = detect_rooms env image gray flag job_dir /\
       List.filter (fun ev => match ev with CallDetectRooms _ _ => true | _ => false end)
         events = [CallDetectRooms flag job_dir]) /\
    (primary <> Ok [] ->
       fst (detect_stage env image gray use_sam job_dir tr) = primary) /\
    ((exists f d, In (CallDetectRooms f d) events) <-> primary = Ok [])) /\
  (forall contents pixels_per_metre_arg floor_height building_name,
    exists events : Trace,
      snd (analyze_floorplan env contents pixels_per_metre_arg floor_height
             use_sam building_name tr) = (tr ++ events)%list /\
      forall f d,
        In (CallDetectRooms f d) events ->
        exists decoded_image,
          imdecode env contents = Some decoded_image /\
          detect_rooms_advanced env decoded_image (cvtColor env decoded_image)
            "floorplan" flag d = Ok []).
Proof.
  cbv zeta. split.
  - rewrite detect_stage_run. cbv zeta.
    destruct (detect_rooms_advanced env image gray "floorplan" _ job_dir)
      as [[|r rs]|e]; simpl.
    + destruct (detect_rooms env image gray _ job_dir) as [rooms|e]; simpl;
        (eexists; split; [reflexivity|]);
        (split; [intros _; split; reflexivity|]);
        (split; [intros H; now contradiction H|]);
        (split; [reflexivity|]); intros _; do 2 eexists; simpl; eauto 6.
    + eexists; split; [reflexivity|].
      split; [discriminate|]. split; [reflexivity|].
      split; [|discriminate].
      intros (f & d & H). simpl in H. intuition discriminate.
    + eexists; split; [reflexivity|].
      split; [discriminate|]. split; [reflexivity|].
      split; [|discriminate].
      intros (f & d & H). simpl in H. intuition discriminate.
  - intros contents ppm_arg floor_height building_name.
    destruct (analyze_hybrid_calls contents ppm_arg floor_height use_sam
                building_name tr) as (events & E & HP).
    exists events. split; [exact E|].
    intros f d Hin. rewrite Forall_forall in HP.
    apply list_elem_of_In in Hin. exact (HP _ Hin f d eq_refl).
Qed.

(** C3: when the upload decodes, the scale is available, and both the
    trained-model strategy and the hybrid detector return the empty list,
    the request ends by raising [HTTPException(422, "No rooms detected in
    image")] to its caller; the two detectors were each called once, in
    that order, nothing was called after the hybrid detector, and no
    artifact was written. *)
Theorem no_rooms_is_terminal (contents : list Init.Byte.byte)
    (pixels_per_metre_arg : option num) (floor_height : num) (use_sam : bool)
    (building_name : string) (image : Image) (tr : Trace) :
  let flag := use_sam && SAM_AVAILABLE env in
  let gray := cvtColor env image in
  imdecode env contents = Some image ->
  (pixels_per_metre_arg = None -> exists s, detect_scale env gray = Ok s) ->
  detect_rooms_advanced env image gray "floorplan" flag (job_dir_of env) = Ok [] ->
  detect_rooms env image gray flag (job_dir_of env) = Ok [] ->
  exists before : Trace,
    analyze_floorplan env contents pixels_per_metre_arg floor_height use_sam
      building_name tr
    = (Raise (HTTPException 422 "No rooms detected in image"),
       (tr ++ before ++
        [ CallDetectRoomsAdvanced "floorplan" flag (job_dir_of env);
          Print "[ANALYZE] Floorplan model found no rooms, falling back to hybrid...";
          CallDetectRooms flag (job_dir_of env);
          Print "[ANALYZE] Room detection complete: 0 rooms found" ])%list) /\
    List.filter is_detector_call before = [] /\
    List.filter is_artifact before = [].
Proof.
  cbv zeta. intros Himg Hscale Hprimary Hhybrid.
  set (opening :=
         [ Print ("[ANALYZE] Request received - use_sam=" ++ str_bool use_sam
                  ++ ", SAM_AVAILABLE=" ++ str_bool (SAM_AVAILABLE env));
           Mkdir (job_dir_of env);
           Print "[ANALYZE] Reading uploaded file...";
           Print ("[ANALYZE] File read: " ++ str_nat (length contents) ++ " bytes");
           ImWrite (job_dir_of env ++ "/input.png") ]).
  set (starting :=
         [ Print "[ANALYZE] Starting room detection with floorplan model..." ]).
  unfold analyze_floorplan, analyze_body, try_except, bind, emit. simpl.
  rewrite Himg.
  destruct (shape (cvtColor env image)) as [img_height img_width]. simpl.
  destruct pixels_per_metre_arg as [ppm|]; simpl.
  - rewrite detect_stage_run. cbv zeta. rewrite Hprimary, Hhybrid. simpl.
    exists (opening ++ starting)%list. split; [|split].
    + rewrite <- !app_assoc. simpl. reflexivity.
    + reflexivity.
    + reflexivity.
  - destruct (Hscale eq_refl) as [s Hs].
    unfold scale_stage, bind, emit, lift, ret. simpl. rewrite Hs. simpl.
    rewrite detect_stage_run. cbv zeta. rewrite Hprimary, Hhybrid. simpl.
    exists (opening ++ [CallDetectScale] ++ starting)%list. split; [|split].
    + rewrite <- !app_assoc. simpl. reflexivity.
    + reflexivity.
    + reflexivity.
Qed.

End Orchestrator.

(** Worked instance of C2: the trained model finds nothing, the hybrid
    detector finds one room, and that room is the stage's result. *)
Lemma fallback_equivalence_witness :
  Main.detect_rooms_advanced Fixtures.hybrid_finds_one Fixtures.decoded
    (Main.cvtColor Fixtures.hybrid_finds_one Fixtures.decoded) "floorplan" true "/job"
  = Ok [] /\
  fst (Main.detect_stage Fixtures.hybrid_finds_one Fixtures.decoded
         (Main.cvtColor Fixtures.hybrid_finds_one Fixtures.decoded) true "/job" [])
  = Ok [Fixtures.scenario3].
Proof.
  split; [reflexivity|].
  destruct (proj1 (fallback_equivalence Fixtures.hybrid_finds_one Fixtures.decoded
              (Main.cvtColor Fixtures.hybrid_finds_one Fixtures.decoded)
              true "/job" [])) as (events & _ & Hempty & _).
  destruct (Hempty eq_refl) as [-> _]. reflexivity.
Defined.

(** Worked instance of C3: a request for which neither strategy finds a
    room. *)
Lemma no_rooms_is_terminal_witness :
  fst (Main.analyze_floorplan Fixtures.nothing_found Fixtures.upload
         (Some 100%Q) 3%Q true "Building" [])
  = Raise (HTTPException 422 "No rooms detected in image").
Proof.
  destruct (no_rooms_is_terminal Fixtures.nothing_found Fixtures.upload
              (Some 100%Q) 3%Q true "Building" Fixtures.decoded [])
    as (before & -> & _).
  - reflexivity.
  - discriminate.
  - reflexivity.
  - reflexivity.
  - reflexivity.
Defined.


(* ===================================================================== *)
(** * Properties of the result record                                    *)
(* ===================================================================== *)

Section ResultRecord.
Import Main.
Context {F : PyFloat} {O : PyFloatOrd F}.
Variable env : Collaborators.

(** The scale stage, outcome by outcome. *)
Lemma scale_stage_run (gray : GrayImage) (arg : option num) (tr : Trace) :
  scale_stage env gray arg tr =
  match arg with
  | Some ppm =>
      (Ok (ppm, PDict [ ("detected", PStr "user_provided");
                        ("pixels_per_metre", PFloat ppm);
                        ("confidence", PStr "user") ]), tr)
  | None =>
      match detect_scale env gray with
      | Ok s =>
          (Ok (pixels_per_metre s,
               PDict [ ("detected", PStr (scale_text s));
                       ("pixels_per_metre", PFloat (pixels_per_metre s));
                       ("confidence", PStr (confidence s)) ]),
           (tr ++ [CallDetectScale])%list)
      | Raise e => (Raise e, (tr ++ [CallDetectScale])%list)
      end
  end.
Proof.
  unfold scale_stage, bind, emit, lift, ret.
  destruct arg; [reflexivity|]. simpl.
  now destruct (detect_scale env gray).
Qed.

Lemma scale_info_keys (gray : GrayImage) (arg : option num) (tr : Trace)
    (ppm : num) (info : pyval) :
  fst (scale_stage env gray arg tr) = Ok (ppm, info) ->
  all_keys info = ["detected"; "pixels_per_metre"; "confidence"] /\
  getitem info "pixels_per_metre" = Some (PFloat ppm).
Proof.
  rewrite scale_stage_run. destruct arg as [p|]; simpl.
  - intros [= <- <-]. now split.
  - destruct (detect_scale env gray) as [s|e]; simpl; [|discriminate].
    intros [= <- <-]. now split.
Qed.

(** The conversion loop projects the rooms one by one, in order. *)
Lemma project_loop (H : Z) (ppm : num) (rooms_px : list PixelRoom)
    (acc out : list MetricRoom) :
  rfor_each
    (fun rooms_m r => let? m := project H ppm r in Ok (rooms_m ++ [m])%list)
    rooms_px acc = Ok out ->
  exists ms,
    out = (acc ++ ms)%list /\
    Forall2 (fun r m => project H ppm r = Ok m) rooms_px ms.
Proof.
  revert acc. induction rooms_px as [|r rs IH]; intros acc; simpl.
  - intros [= <-]. exists []. split; [now rewrite app_nil_r | constructor].
  - destruct (project H ppm r) as [m|e] eqn:Hm; simpl; [|discriminate].
    intros Hrest. apply IH in Hrest as (ms & -> & Hall).
    exists (m :: ms). split; [now rewrite <- app_assoc | now constructor].
Qed.

Lemma project_all_each (H : Z) (ppm : num) (rooms_px : list PixelRoom)
    (rooms_m : list MetricRoom) :
  project_all H ppm rooms_px = Ok rooms_m ->
  Forall2 (fun r m => project H ppm r = Ok m) rooms_px rooms_m.
Proof.
  intros Hall. apply project_loop in Hall as (ms & -> & Hms). exact Hms.
Qed.

(** The derived label is one of three words. *)
Lemma room_type_values (room : MetricRoom) (label : string) :
  room_type room = Ok label ->
  label = "Corridor" \/ label = "Circulation" \/ label = "Room".
Proof.
  unfold room_type, truediv.
  destruct (is_zero _); simpl; [discriminate|].
  intros [= <-].
  destruct (flt (literal 5 0) _); [now left|].
  destruct (flt (literal 3 0) _); [right; now left | right; now right].
Qed.

(** Each exported space carries the derived label in its name and the
    metric rectangle as its footprint. *)
Lemma add_space_loop (floor_height : num) (rooms_m : list MetricRoom)
    (acc : list Space) (i : nat) (out : list Space * nat) :
  rfor_each (add_space floor_height) rooms_m (acc, i) = Ok out ->
  exists spaces,
    fst out = (acc ++ spaces)%list /\
    Forall2
      (fun room sp =>
         exists label n,
           room_type room = Ok label /\
           name sp = label ++ "_" ++ fmt_03d n /\
           space_id sp = "space-" ++ fmt_03d n /\
           sx sp = mx room /\ sy sp = my room /\
           swidth sp = width room /\ sdepth sp = height room)
      rooms_m spaces.
Proof.
  revert acc i. induction rooms_m as [|room rest IH]; intros acc i; simpl.
  - intros [= <-]. exists []. split; [now rewrite app_nil_r | constructor].
  - destruct (room_type room) as [label|e] eqn:Hlabel; simpl; [|discriminate].
    intros Hrest. apply IH in Hrest as (spaces & -> & Hall).
    eexists (_ :: spaces). split; [now rewrite <- app_assoc|].
    constructor; [|exact Hall].
    exists label, i. simpl. repeat split; reflexivity || assumption.
Qed.

Lemma metric_rooms_keys (rooms_m : list MetricRoom) (k : string) :
  In k (all_keys (PList (map metric_dict rooms_m))) ->
  In k ["x"; "y"; "width"; "height"; "area_m2"].
Proof.
  simpl. induction rooms_m as [|m ms IH]; simpl; [tauto|].
  intros [<-|[<-|[<-|[<-|[<-|H]]]]]; simpl; auto 6.
Qed.

Lemma scale_stage_fst (gray : GrayImage) (arg : option num) (tr : Trace) :
  fst (scale_stage env gray arg tr) = fst (scale_stage env gray arg []).
Proof.
  rewrite !scale_stage_run. destruct arg; [reflexivity|].
  now destruct (detect_scale env gray).
Qed.

Lemma detect_stage_fst (image : Image) (gray : GrayImage) (use_sam : bool)
    (job_dir : string) (tr : Trace) :
  fst (detect_stage env image gray use_sam job_dir tr)
  = fst (detect_stage env image gray use_sam job_dir []).
Proof.
  rewrite !detect_stage_run. cbv zeta.
  destruct (detect_rooms_advanced env image gray "floorplan" _ job_dir)
    as [[|r rs]|e]; try reflexivity.
  now destruct (detect_rooms env image gray _ job_dir).
Qed.

Lemma result_keys_known (job_id : string) (use_sam : bool) (scale_info : pyval)
    (img_width img_height : Z) (rooms_m : list MetricRoom) (total_area : num)
    (floor_height : num) (k : string) :
  all_keys scale_info = ["detected"; "pixels_per_metre"; "confidence"] ->
  In k (all_keys (make_result env job_id use_sam scale_info img_width img_height
                    rooms_m total_area floor_height)) ->
  In k result_vocabulary.
Proof.
  intros Hscale. unfold make_result.
  cbn [all_keys]. rewrite Hscale.
  change (flat_map all_keys (map metric_dict rooms_m))
    with (all_keys (PList (map metric_dict rooms_m))).
  cbn [app In]. rewrite !in_app_iff. cbn [In].
  intros Hk.
  repeat (destruct Hk as [<- | Hk]; [unfold result_vocabulary; simpl; tauto|]).
  destruct Hk as [Hk | Hk].
  - apply metric_rooms_keys in Hk. simpl in Hk.
    unfold result_vocabulary. simpl.
    repeat (destruct Hk as [<- | Hk]; [tauto|]). contradiction.
  - repeat (destruct Hk as [<- | Hk]; [unfold result_vocabulary; simpl; tauto|]).
    contradiction.
Qed.

(** A request that succeeds went through every stage. *)
Lemma analyze_body_success (contents : list Init.Byte.byte)
    (pixels_per_metre_arg : option num) (floor_height : num) (use_sam : bool)
    (building_name : string) (tr tr' : Trace) (result : pyval) :
  analyze_body env (job_id_of env) (job_dir_of env) contents pixels_per_metre_arg
    floor_height use_sam building_name tr = (Ok result, tr') ->
  exists image ppm scale_info rooms_px rooms_m spaces,
    imdecode env contents = Some image /\
    fst (scale_stage env (cvtColor env image) pixels_per_metre_arg [])
      = Ok (ppm, scale_info) /\
    fst (detect_stage env image (cvtColor env image) use_sam (job_dir_of env) [])
      = Ok rooms_px /\
    rooms_px <> [] /\
    project_all (fst (shape (cvtColor env image))) ppm rooms_px = Ok rooms_m /\
    gbxml_spaces floor_height rooms_m = Ok spaces /\
    In (GbxmlSave (job_dir_of env ++ "/floorplan.xml") building_name spaces) tr' /\
    result =
      make_result env (job_id_of env) use_sam scale_info
        (snd (shape (cvtColor env image))) (fst (shape (cvtColor env image)))
        rooms_m (py_sum (map area_m2 rooms_m)) floor_height.
Proof.
  unfold analyze_body, bind, emit, raise. simpl.
  destruct (imdecode env contents) as [image|]; [|discriminate].
  match goal with
  | |- context [scale_stage env ?g ?a ?t] =>
      pose proof (scale_stage_fst g a t) as Hs;
      destruct (scale_stage env g a t) as [[[ppm scale_info]|e] tr1]
  end; [|discriminate].
  match goal with
  | |- context [detect_stage env ?i ?g ?u ?d ?t] =>
      pose proof (detect_stage_fst i g u d t) as Hd;
      destruct (detect_stage env i g u d t) as [[rooms_px|e] tr2]
  end; [|discriminate].
  destruct rooms_px as [|r rs]; [discriminate|].
  unfold lift, ret. simpl.
  destruct (project_all _ ppm (r :: rs)) as [rooms_m|e] eqn:Hproj;
    [|discriminate].
  destruct (gbxml_spaces floor_height rooms_m) as [spaces|e] eqn:Hspaces;
    [|discriminate].
  destruct (gbxml_save env building_name spaces _) as [[]|e]; [|discriminate].
  destruct (export_obj env rooms_m floor_height _) as [[]|e]; [|discriminate].
  intros [= <- <-].
  exists image, ppm, scale_info, (r :: rs), rooms_m, spaces.
  simpl in *.
  split; [reflexivity|]. split; [congruence|]. split; [congruence|].
  split; [discriminate|]. split; [exact Hproj|]. split; [exact Hspaces|].
  split; [|reflexivity].
  rewrite !in_app_iff. simpl. tauto.
Qed.

(** C5 (amended): the record a successful analysis returns has exactly the
    eleven keys of the source; under them it holds the metric room list
    (each room with x, y, width, height and area_m2), the number of rooms,
    the total floor area rounded to one decimal, the scale estimate used
    and the references to the four persisted artifacts.  It holds neither
    the pixel-space room list nor any class name: no key "class_name", "w"
    or "h" occurs anywhere in it.  The derived Corridor / Circulation / Room
    label goes into the name of the exported space and nowhere else. *)
Theorem result_record (contents : list Init.Byte.byte)
    (pixels_per_metre_arg : option num) (floor_height : num) (use_sam : bool)
    (building_name : string) (tr : Trace) (result : pyval) :
  fst (analyze_floorplan env contents pixels_per_metre_arg floor_height use_sam
         building_name tr) = Ok result ->
  exists image ppm scale_info rooms_px rooms_m spaces,
    imdecode env contents = Some image /\
    fst (scale_stage env (cvtColor env image) pixels_per_metre_arg [])
      = Ok (ppm, scale_info) /\
    fst (detect_stage env image (cvtColor env image) use_sam (job_dir_of env) [])
      = Ok rooms_px /\
    rooms_px <> [] /\
    Forall2 (fun r m => project (fst (shape (cvtColor env image))) ppm r = Ok m)
      rooms_px rooms_m /\
    gbxml_spaces floor_height rooms_m = Ok spaces /\
    In (GbxmlSave (job_dir_of env ++ "/floorplan.xml") building_name spaces)
      (snd (analyze_floorplan env contents pixels_per_metre_arg floor_height
              use_sam building_name tr)) /\
    Forall2
      (fun room sp =>
         exists label n,
           room_type room = Ok label /\
           (label = "Corridor" \/ label = "Circulation" \/ label = "Room") /\
           name sp = label ++ "_" ++ fmt_03d n)
      rooms_m spaces /\
    keys result =
      [ "job_id"; "status"; "processing_time_sec"; "method"; "scale";
        "image_size"; "rooms_detected"; "total_area_m2"; "floor_height_m";
        "rooms"; "files" ] /\
    getitem result "rooms" = Some (PList (map metric_dict rooms_m)) /\
    getitem result "rooms_detected" = Some (PInt (Z.of_nat (length rooms_px))) /\
    getitem result "total_area_m2"
      = Some (PFloat (round_ndigits (py_sum (map area_m2 rooms_m)) 1)) /\
    getitem result "scale" = Some scale_info /\
    getitem scale_info "pixels_per_metre" = Some (PFloat ppm) /\
    getitem result "files"
      = Some (PDict
                [ ("preview", PStr ("/download/" ++ job_id_of env ++ "/preview.png"));
                  ("gbxml", PStr ("/download/" ++ job_id_of env ++ "/floorplan.xml"));
                  ("obj", PStr ("/download/" ++ job_id_of env ++ "/floorplan.obj"));
                  ("input", PStr ("/download/" ++ job_id_of env ++ "/input.png")) ]) /\
    (forall k, In k (all_keys result) -> In k result_vocabulary) /\
    ~ In "class_name" (all_keys result) /\
    ~ In "w" (all_keys result) /\
    ~ In "h" (all_keys result).
Proof.
  unfold analyze_floorplan, try_except, bind, emit. simpl.
  destruct (analyze_body env (job_id_of env) (job_dir_of env) contents
              pixels_per_metre_arg floor_height use_sam building_name _)
    as [[res|e] tr'] eqn:Hbody; simpl.
  2:{ destruct (is_HTTPException e); discriminate. }
  intros [= ->].
  apply analyze_body_success in Hbody
    as (image & ppm & scale_info & rooms_px & rooms_m & spaces
        & Himg & Hscale & Hdetect & Hne & Hproj & Hspaces & Hin & ->).
  destruct (scale_info_keys _ _ _ _ _ Hscale) as [Hkeys Hppm].
  pose proof (project_all_each _ _ _ _ Hproj) as Heach.
  assert (Hvocab : forall k,
             In k (all_keys
                     (make_result env (job_id_of env) use_sam scale_info
                        (snd (shape (cvtColor env image)))
                        (fst (shape (cvtColor env image))) rooms_m
                        (py_sum (map area_m2 rooms_m)) floor_height)) ->
             In k result_vocabulary).
  { intros k. now apply result_keys_known. }
  exists image, ppm, scale_info, rooms_px, rooms_m, spaces.
  split; [exact Himg|]. split; [exact Hscale|]. split; [exact Hdetect|].
  split; [exact Hne|]. split; [exact Heach|]. split; [exact Hspaces|].
  split; [exact Hin|]. split.
  { unfold gbxml_spaces in Hspaces.
    destruct (rfor_each (add_space floor_height) rooms_m ([], 1%nat))
      as [out|e] eqn:Hloop; simpl in Hspaces; [|discriminate].
    injection Hspaces as <-.
    apply add_space_loop in Hloop as (sps & -> & Hall). simpl.
    eapply Forall2_impl; [exact Hall|].
    intros room sp (label & n & Hl & Hn & _).
    exists label, n. split; [exact Hl|]. split; [|exact Hn].
    eapply room_type_values; eassumption. }
  split; [reflexivity|]. split; [reflexivity|].
  split. { simpl. now rewrite (Forall2_length _ _ _ Heach). }
  split; [reflexivity|]. split; [reflexivity|]. split; [exact Hppm|].
  split; [reflexivity|]. split; [exact Hvocab|].
  repeat split; intros Hk; apply Hvocab in Hk; simpl in Hk;
    intuition discriminate.
Qed.

End ResultRecord.

(** Worked instance of C5: the request served by the hybrid detector. *)
Lemma result_record_witness :
  exists result,
    fst (Main.analyze_floorplan Fixtures.hybrid_finds_one Fixtures.upload None
           3%Q true "Building" []) = Ok result /\
    ~ In "class_name" (Main.all_keys result).
Proof.
  assert (Hrun : exists result,
             fst (Main.analyze_floorplan Fixtures.hybrid_finds_one Fixtures.upload
                    None 3%Q true "Building" []) = Ok result)
    by (eexists; vm_compute; reflexivity).
  destruct Hrun as [result Hrun]. exists result. split; [exact Hrun|].
  destruct (result_record Fixtures.hybrid_finds_one Fixtures.upload None
              3%Q true "Building" [] result Hrun)
    as (image & ppm & scale_info & rooms_px & rooms_m & spaces & H).
  apply H.
Defined.

(** C5 as stated fails: the room found has class "bedroom" and pixel
    rectangle (100, 50, 80, 40), yet the returned record has no pixel-space
    list, no "class_name" key and no "bedroom" value; its rooms carry the
    five metric keys only. *)
Lemma result_drops_pixel_rooms_and_class_name :
  exists result,
    fst (Main.analyze_floorplan Fixtures.hybrid_finds_one Fixtures.upload None
           3%Q true "Building" []) = Ok result /\
    fst (Main.detect_stage Fixtures.hybrid_finds_one Fixtures.decoded
           (Main.cvtColor Fixtures.hybrid_finds_one Fixtures.decoded) true
           (Main.job_dir_of Fixtures.hybrid_finds_one) [])
      = Ok [ {| px := 100; py := 50; pw := 80; ph := 40; class_name := "bedroom" |} ] /\
    Main.keys result =
      [ "job_id"; "status"; "processing_time_sec"; "method"; "scale";
        "image_size"; "rooms_detected"; "total_area_m2"; "floor_height_m";
        "rooms"; "files" ] /\
    (exists room,
        Main.getitem result "rooms" = Some (Main.PList [room]) /\
        Main.keys room = ["x"; "y"; "width"; "height"; "area_m2"]) /\
    ~ In "class_name" (Main.all_keys result) /\
    ~ In "w" (Main.all_keys result) /\
    ~ In "bedroom" (Main.all_strs result).
Proof.
  eexists. split; [vm_compute; reflexivity|].
  split; [vm_compute; reflexivity|].
  split; [reflexivity|].
  split; [eexists; split; reflexivity|].
  repeat split; intros H; vm_compute in H; intuition discriminate.
Qed.

(* ===================================================================== *)
(** * Further properties of the room extractor                           *)
(* ===================================================================== *)

Section ExtractorMore.
Import FloorplanModel.
Variable cv2 : OpenCV.

Lemma kept_sublist (k : Z) (a a' : Q) (cs : list Contour) :
  (a <= a')%Q ->
  sublist
    (map (room_of cv2 k) (List.filter (fun c => ge (contourArea cv2 c) a') cs))
    (map (room_of cv2 k) (List.filter (fun c => ge (contourArea cv2 c) a) cs)).
Proof.
  intros Hle. induction cs as [|c cs IH]; simpl; [constructor|].
  destruct (ge (contourArea cv2 c) a') eqn:E'.
  - assert (E : ge (contourArea cv2 c) a = true).
    { unfold ge in *. apply Qle_bool_iff. apply Qle_bool_iff in E'.
      eapply Qle_trans; eassumption. }
    rewrite E. simpl. now constructor.
  - destruct (ge (contourArea cv2 c) a); simpl; [now constructor | exact IH].
Qed.

Lemma outer_loop_monotone (mask : Mask) (a a' : Q) (ks : list Z)
    (acc acc' rooms : list PixelRoom) :
  (a <= a')%Q ->
  sublist acc' acc ->
  rfor_each (extract_class cv2 mask a) ks acc = Ok rooms ->
  exists rooms',
    rfor_each (extract_class cv2 mask a') ks acc' = Ok rooms' /\
    sublist rooms' rooms.
Proof.
  intros Hle. revert acc acc'.
  induction ks as [|k ks IH]; intros acc acc' Hsub; simpl.
  - intros [= <-]. eauto.
  - unfold extract_class at 1 3. case_bool_decide; simpl.
    + apply IH, Hsub.
    + destruct (findContours cv2 (class_mask mask k)) as [cs|e]; simpl;
        [|discriminate].
      apply IH. rewrite !inner_loop_filter.
      apply sublist_app; [exact Hsub | now apply kept_sublist].
Qed.

(** X1: raising [min_area] only removes rectangles: what the extractor
    returns for the larger threshold is, in order, a sub-list of what it
    returns for the smaller one (and it returns for the one whenever it
    returns for the other). *)
Theorem extract_monotone_in_min_area (mask : Mask) (a a' : Q)
    (rooms : list PixelRoom) :
  (a <= a')%Q ->
  extract_rooms_from_mask cv2 mask a = Ok rooms ->
  exists rooms',
    extract_rooms_from_mask cv2 mask a' = Ok rooms' /\
    sublist rooms' rooms.
Proof.
  intros Hle. apply outer_loop_monotone; [exact Hle | constructor].
Qed.

Lemma emitted_name_known (k : Z) :
  k ∉ [0; 2] ->
  In (default "other" (ROOM_CATEGORIES !! k)) room_names.
Proof.
  intros Hk.
  destruct (ROOM_CATEGORIES !! k) as [s|] eqn:E; simpl; [|auto 10].
  apply elem_of_list_to_map_2 in E.
  repeat (apply elem_of_cons in E as [E | E];
          [ injection E as -> -> ;
            first [ exfalso; apply Hk; set_solver | simpl; auto 10 ] | ]).
  inversion E.
Qed.

Lemma outer_loop_names (mask : Mask) (min_area : Q) (ks : list Z)
    (acc rooms : list PixelRoom) :
  Forall (fun r => In (class_name r) room_names) acc ->
  rfor_each (extract_class cv2 mask min_area) ks acc = Ok rooms ->
  Forall (fun r => In (class_name r) room_names) rooms.
Proof.
  revert acc. induction ks as [|k ks IH]; intros acc Hacc; simpl.
  - now intros [= <-].
  - unfold extract_class at 1. case_bool_decide as Hk; simpl.
    + now apply IH.
    + destruct (findContours cv2 (class_mask mask k)) as [cs|e]; simpl;
        [|discriminate].
      apply IH. rewrite inner_loop_filter. apply Forall_app. split; [exact Hacc|].
      apply Forall_forall. intros r Hr.
      apply list_elem_of_In, in_map_iff in Hr as (c & <- & _).
      unfold room_of. destruct (boundingRect cv2 c) as [[[x y] w] h]. simpl.
      now apply emitted_name_known.
Qed.

(** X2: every rectangle the extractor returns is labelled with one of the
    nine room categories "outdoor", "kitchen", "living_room", "bedroom",
    "bathroom", "hallway", "storage", "garage", "other". *)
Theorem extract_labels_are_room_categories (mask : Mask) (min_area : Q)
    (rooms : list PixelRoom) :
  extract_rooms_from_mask cv2 mask min_area = Ok rooms ->
  Forall (fun r => In (class_name r) room_names) rooms.
Proof. apply outer_loop_names. constructor. Qed.

Lemma outer_loop_raises (mask : Mask) (min_area : Q) (ks : list Z)
    (acc : list PixelRoom) (e : exn) :
  rfor_each (extract_class cv2 mask min_area) ks acc = Raise e ->
  exists k, In k ks /\ (k ∉ [0; 2]) /\
            findContours cv2 (class_mask mask k) = Raise e.
Proof.
  revert acc. induction ks as [|k ks IH]; intros acc; simpl; [discriminate|].
  unfold extract_class at 1. case_bool_decide as Hk; simpl.
  - intros H. apply IH in H as (k' & Hin & Hk' & Hfc). eauto.
  - destruct (findContours cv2 (class_mask mask k)) as [cs|e'] eqn:Hfc; simpl.
    + intros H. apply IH in H as (k' & Hin & Hk' & Hfc'). eauto.
    + intros [= <-]. eauto.
Qed.

Lemma outer_loop_fails (mask : Mask) (min_area : Q) (ks : list Z)
    (acc : list PixelRoom) (k : Z) (e : exn) :
  In k ks -> k ∉ [0; 2] ->
  findContours cv2 (class_mask mask k) = Raise e ->
  exists e', rfor_each (extract_class cv2 mask min_area) ks acc = Raise e'.
Proof.
  revert acc. induction ks as [|k0 ks IH]; intros acc Hin Hk Hfc; [destruct Hin|].
  simpl. unfold extract_class at 1. case_bool_decide as Hk0; simpl.
  - destruct Hin as [-> | Hin]; [contradiction | now apply IH].
  - destruct (findContours cv2 (class_mask mask k0)) as [cs|e0] eqn:Hfc0; simpl.
    + destruct Hin as [-> | Hin]; [congruence | now apply IH].
    + eauto.
Qed.

(** X3: the extractor raises exactly when the contour search raises on the
    mask of one of the nine room classes, and what it raises is such an
    exception; the masks of background and wall are never searched and
    [min_area] plays no part. *)
Theorem extract_raises_iff_contour_search_raises (mask : Mask) (min_area : Q) :
  (forall e,
      extract_rooms_from_mask cv2 mask min_area = Raise e ->
      exists k, In k room_classes /\
                findContours cv2 (class_mask mask k) = Raise e) /\
  (forall k e,
      In k room_classes ->
      findContours cv2 (class_mask mask k) = Raise e ->
      exists e', extract_rooms_from_mask cv2 mask min_area = Raise e').
Proof.
  split.
  - intros e H. apply outer_loop_raises in H as (k & Hin & Hk & Hfc).
    exists k. split; [|exact Hfc].
    unfold room_classes. apply filter_In. split; [exact Hin|].
    now rewrite bool_decide_eq_false_2.
  - intros k e Hin Hfc. unfold room_classes in Hin.
    apply filter_In in Hin as [Hin Hk].
    apply (outer_loop_fails mask min_area _ [] k e); [exact Hin | | exact Hfc].
    intros Hmem. now rewrite bool_decide_eq_true_2 in Hk.
Qed.

Lemma lookup_map {A B} (f : A -> B) (l : list A) (i : nat) :
  map f l !! i = option_map f (l !! i).
Proof.
  revert i. induction l as [|a l IH]; intros [|i]; simpl; auto.
Qed.

Lemma pixel_map (f : Z -> Z) (m : Mask) (i j : nat) :
  pixel (map (map f) m) i j = option_map f (pixel m i j).
Proof.
  unfold pixel. revert i. induction m as [|row m IH]; intros [|i]; simpl; auto.
  apply lookup_map.
Qed.

(** X4: a class mask has the shape of the mask it is cut from, holds only
    0 and 255, and has 255 exactly where the mask holds that class; so no
    pixel is foreground in the class masks of two different classes. *)
Theorem class_mask_pixels (mask : Mask) (k : Z) :
  map (@length Z) (class_mask mask k) = map (@length Z) mask /\
  Forall (Forall (fun v => v = 0 \/ v = 255)) (class_mask mask k) /\
  (forall i j, pixel (class_mask mask k) i j = Some 255 <-> pixel mask i j = Some k) /\
  (forall k' i j,
      k' <> k ->
      pixel (class_mask mask k) i j = Some 255 ->
      pixel (class_mask mask k') i j = Some 0).
Proof.
  assert (Hpix : forall k0 i j,
             pixel (class_mask mask k0) i j
             = option_map (fun v => if v =? k0 then 255 else 0) (pixel mask i j)).
  { intros k0 i j. unfold class_mask. apply pixel_map. }
  split; [|split; [|split]].
  - unfold class_mask. rewrite map_map. apply map_ext. intros row.
    apply length_map.
  - unfold class_mask. apply Forall_forall. intros row Hrow.
    apply list_elem_of_In, in_map_iff in Hrow as (row0 & <- & _).
    apply Forall_forall. intros v Hv.
    apply list_elem_of_In, in_map_iff in Hv as (v0 & <- & _).
    destruct (v0 =? k); auto.
  - intros i j. rewrite Hpix.
    destruct (pixel mask i j) as [v|]; simpl; [|split; discriminate].
    destruct (Z.eqb_spec v k) as [-> | Hne]; split; try reflexivity;
      try discriminate.
    intros [= ->]. contradiction.
  - intros k' i j Hne. rewrite !Hpix.
    destruct (pixel mask i j) as [v|]; simpl; [|discriminate].
    destruct (Z.eqb_spec v k) as [-> | Hv]; [|discriminate].
    intros _. destruct (Z.eqb_spec k k'); [congruence | reflexivity].
Qed.

End ExtractorMore.

(** Worked instance of X1: thresholds 500 and 1000 on the four regions. *)
Lemma extract_monotone_in_min_area_witness :
  (500 <= 1000)%Q /\
  exists rooms',
    FloorplanModel.extract_rooms_from_mask Fixtures.cv2_regions
      Fixtures.bedroom_mask 1000 = Ok rooms' /\
    sublist rooms'
      [ {| px := 10; py := 10; pw := 41; ph := 26; class_name := "bedroom" |};
        {| px := 100; py := 10; pw := 41; ph := 26; class_name := "bedroom" |};
        {| px := 200; py := 0; pw := 26; ph := 21; class_name := "bedroom" |} ].
Proof.
  split; [discriminate|].
  apply (extract_monotone_in_min_area Fixtures.cv2_regions Fixtures.bedroom_mask
           500 1000); [discriminate | vm_compute; reflexivity].
Defined.

(** Worked instance of X2. *)
Lemma extract_labels_are_room_categories_witness :
  Forall (fun r => In (class_name r) room_names)
    [ {| px := 10; py := 10; pw := 41; ph := 26; class_name := "bedroom" |};
      {| px := 100; py := 10; pw := 41; ph := 26; class_name := "bedroom" |};
      {| px := 200; py := 0; pw := 26; ph := 21; class_name := "bedroom" |} ].
Proof.
  apply (extract_labels_are_room_categories Fixtures.cv2_regions
           Fixtures.bedroom_mask FloorplanModel.default_min_area).
  vm_compute; reflexivity.
Defined.

(** Worked instance of X3: a contour search that always fails. *)
Lemma extract_raises_iff_contour_search_raises_witness :
  exists e',
    FloorplanModel.extract_rooms_from_mask Fixtures.cv2_broken
      Fixtures.bedroom_mask FloorplanModel.default_min_area = Raise e'.
Proof.
  apply (proj2 (extract_raises_iff_contour_search_raises Fixtures.cv2_broken
                  Fixtures.bedroom_mask FloorplanModel.default_min_area)
           5 (Exception "cv2.error" "findContours failed")).
  - vm_compute. auto 10.
  - reflexivity.
Defined.

(* ===================================================================== *)
(** * Further properties of the model class and its cache                *)
(* ===================================================================== *)

Section CacheMore.
Import FloorplanModel.
Variable torch : Torch.

(** Whether the constructor raises, and what, does not depend on the
    interpreter state. *)
Lemma init_raises_anywhere (p d : option string) (size : Z) (w w1 w' : World)
    (e : exn) :
  __init__ torch p d size w = (Raise e, w1) ->
  fst (__init__ torch p d size w') = Raise e.
Proof.
  unfold __init__.
  destruct (TORCH_AVAILABLE torch); simpl.
  - unfold bind, new_object, print, lift, ret; simpl.
    destruct (ResNetUNet torch) as [[]|e0]; simpl; [|now intros [= <- _]].
    destruct (path_exists torch _); simpl;
      [destruct (load_state_dict torch _ _) as [[]|e1]; simpl;
         [|now intros [= <- _]]|];
      (destruct (model_to torch _) as [[]|e2]; simpl; [|now intros [= <- _]]);
      (destruct (tensor_to torch _) as [[]|e3]; simpl; [|now intros [= <- _]]);
      discriminate.
  - unfold raise. now intros [= <- _].
Qed.


(** X6: a lookup raises only what the constructor raised for an absent
    key (never a [KeyError]); the failure is not remembered: the cache is
    left as it was, the key is still absent, and the next lookup with the
    same argument runs the constructor again and raises the same
    exception. *)
Theorem failed_lookup_is_not_cached (p : option string) (w w1 : World) (e : exn) :
  load_floorplan_model torch p w = (Raise e, w1) ->
  _floorplan_model_cache w !! cache_key p = None /\
  __init__ torch p None 512 w = (Raise e, w1) /\
  _floorplan_model_cache w1 = _floorplan_model_cache w /\
  exists w2,
    load_floorplan_model torch p w1 = (Raise e, w2) /\
    _floorplan_model_cache w2 = _floorplan_model_cache w.
Proof.
  destruct (_floorplan_model_cache w !! cache_key p) as [m|] eqn:Hkey.
  - rewrite (load_hit torch _ _ _ Hkey). discriminate.
  - rewrite (load_miss torch _ _ Hkey).
    destruct (__init__ torch p None 512 w) as [[m|e0] w0] eqn:Hinit; [discriminate|].
    intros [= <- <-].
    destruct (init_frame torch _ _ _ _ _ _ Hinit) as (Hc & _ & _).
    split; [reflexivity|]. split; [reflexivity|]. split; [exact Hc|].
    assert (Hkey1 : _floorplan_model_cache w0 !! cache_key p = None)
      by now rewrite Hc.
    rewrite (load_miss torch _ _ Hkey1).
    pose proof (init_raises_anywhere p None 512 w w0 w0 e0 Hinit) as Hagain.
    destruct (__init__ torch p None 512 w0) as [[m|e1] w2] eqn:Hinit2;
      simpl in Hagain; [discriminate|].
    injection Hagain as ->.
    destruct (init_frame torch _ _ _ _ _ _ Hinit2) as (Hc2 & _ & _).
    exists w2. split; [reflexivity|]. now rewrite Hc2.
Qed.

(** X7: a lookup touches no entry but its own: every other key holds after
    the call what it held before, whether the call returned or raised. *)
Theorem lookup_touches_only_its_key (p : option string) (w : World) (k : string) :
  k <> cache_key p ->
  _floorplan_model_cache (snd (load_floorplan_model torch p w)) !! k
  = _floorplan_model_cache w !! k.
Proof.
  intros Hk.
  destruct (_floorplan_model_cache w !! cache_key p) as [m|] eqn:Hkey.
  - now rewrite (load_hit torch _ _ _ Hkey).
  - rewrite (load_miss torch _ _ Hkey).
    destruct (__init__ torch p None 512 w) as [[m|e0] w0] eqn:Hinit;
      destruct (init_frame torch _ _ _ _ _ _ Hinit) as (Hc & _ & _); simpl.
    + rewrite lookup_insert_ne by congruence. now rewrite Hc.
    + now rewrite Hc.
Qed.

End CacheMore.


(** Worked instance of X6: weights that cannot be loaded. *)
Lemma failed_lookup_is_not_cached_witness :
  exists w1,
    FloorplanModel.load_floorplan_model Cases.torch_bad_weights None
      FloorplanModel.initial_world
      = (Raise (Exception "RuntimeError" "size mismatch"), w1) /\
    FloorplanModel._floorplan_model_cache w1 = ∅.
Proof.
  eexists. split; [vm_compute; reflexivity|].
  apply (failed_lookup_is_not_cached Cases.torch_bad_weights None
           FloorplanModel.initial_world _
           (Exception "RuntimeError" "size mismatch")).
  vm_compute; reflexivity.
Defined.

(** Worked instance of X7: looking up "a.pt" leaves "default" alone. *)
Lemma lookup_touches_only_its_key_witness :
  FloorplanModel._floorplan_model_cache
    (snd (FloorplanModel.load_floorplan_model Fixtures.torch_ok (Some "a.pt")
            FloorplanModel.initial_world)) !! "default"
  = FloorplanModel._floorplan_model_cache FloorplanModel.initial_world !! "default".
Proof.
  apply (lookup_touches_only_its_key Fixtures.torch_ok (Some "a.pt")
           FloorplanModel.initial_world "default").
  discriminate.
Defined.

(* ===================================================================== *)
(** * Further properties of the primary detection strategy               *)
(* ===================================================================== *)

Section PrimaryMore.
Import FloorplanModel.
Variable torch : Torch.
Variable cv2 : OpenCV.
Variable predict : FloorPlanSegmentationModel -> Image -> result Mask.


(** X9: whatever the model predicts and whatever fails, every rectangle
    detection returns carries one of the nine room categories -- never
    "background" or "wall". *)
Theorem detect_returns_room_categories (image : Image)
    (model : option FloorPlanSegmentationModel) (min_area : Q) (w : World) :
  exists rooms,
    fst (detect_rooms_floorplan_model torch cv2 predict image model min_area w)
      = Ok rooms /\
    Forall (fun r => In (class_name r) room_names) rooms.
Proof.
  unfold detect_rooms_floorplan_model, try_except.
  destruct (TORCH_AVAILABLE torch); cbn [negb fst ret];
    [|exists []; split; [reflexivity | constructor]].
  destruct (detect_try_body torch cv2 predict image model min_area w)
    as [[found|e] w1] eqn:Hbody; cbn [fst];
    [|exists []; split; [reflexivity | constructor]].
  exists found. split; [reflexivity|].
  unfold detect_try_body, bind, lift, ret in Hbody.
  assert (Hfrom : exists mask,
             extract_rooms_from_mask cv2 mask min_area = Ok found).
  { revert Hbody. destruct model as [m|].
    - destruct (predict m image) as [mask|e]; [|discriminate].
      intros [= H _]. eauto.
    - destruct (load_floorplan_model torch None w) as [[m|e] w0];
        [|discriminate].
      destruct (predict m image) as [mask|e]; [|discriminate].
      intros [= H _]. eauto. }
  destruct Hfrom as [mask Hex].
  eapply outer_loop_names; [|exact Hex]. constructor.
Qed.

(** X10: detection without a model argument leaves the model it loaded in
    the cache under "default", also when the prediction or the extraction
    that follows fails. *)
Theorem detect_caches_default_model (image : Image) (min_area : Q)
    (w w1 : World) (m : FloorPlanSegmentationModel) :
  TORCH_AVAILABLE torch = true ->
  load_floorplan_model torch None w = (Ok m, w1) ->
  _floorplan_model_cache
    (snd (detect_rooms_floorplan_model torch cv2 predict image None min_area w))
    !! "default" = Some m.
Proof.
  intros Ht Hload.
  destruct (load_step torch None w w1 (Ok m) Hload) as [_ Hstored].
  specialize (Hstored m eq_refl). simpl in Hstored.
  unfold detect_rooms_floorplan_model, try_except, detect_try_body,
    bind, lift, ret, print.
  generalize (extract_rooms_from_mask cv2). intros extract.
  rewrite Ht. simpl. rewrite Hload.
  destruct (predict m image) as [mask|e]; simpl; [|exact Hstored].
  destruct (extract mask min_area) as [rooms|e]; simpl; exact Hstored.
Qed.

End PrimaryMore.

(** Worked instance of X10: the prediction fails, the model stays cached. *)
Lemma detect_caches_default_model_witness :
  FloorplanModel._floorplan_model_cache
    (snd (FloorplanModel.detect_rooms_floorplan_model Fixtures.torch_ok
            Fixtures.cv2_regions Fixtures.predict_fails Fixtures.blank_image None
            FloorplanModel.default_min_area FloorplanModel.initial_world))
    !! "default"
  = Some {| FloorplanModel.obj_id := 0; FloorplanModel.device := "cpu";
            FloorplanModel.image_size := 512;
            FloorplanModel.weights := Some "/app/gem_ai/models/best_model.pt" |}.
Proof.
  eapply (detect_caches_default_model Fixtures.torch_ok Fixtures.cv2_regions
            Fixtures.predict_fails Fixtures.blank_image
            FloorplanModel.default_min_area FloorplanModel.initial_world).
  - reflexivity.
  - vm_compute. reflexivity.
Defined.

(* ===================================================================== *)
(** * Further properties of the request handler                          *)
(* ===================================================================== *)

(** Symbolic execution of a request: unfold the handler and split on every
    outcome that is still undetermined. *)
Ltac split_outcomes :=
  repeat match goal with
         | |- context [match ?x with _ => _ end] =>
             lazymatch x with
             | context [match _ with _ => _ end] => fail
             | _ => destruct x eqn:?
             end; simpl
         end.

Ltac run_request :=
  cbv beta iota zeta delta
    [Main.analyze_floorplan Main.analyze_body Main.scale_stage
     Main.detect_stage try_except bind Main.emit lift ret raise];
  simpl; split_outcomes.

Section HandlerMore.
Import Main.
Context {F : PyFloat} {O : PyFloatOrd F}.
Variable env : Collaborators.

(** X11: when [cv2.imdecode] returns [None] for the upload, the request is
    answered with [HTTPException(400, "Invalid image file")]; beyond
    creating the job directory and printing, it has done nothing: no scale
    detection, no detector call, no file.  (An upload for which
    [cv2.imdecode] raises instead of returning is not this case.) *)
Theorem undecodable_upload_is_rejected (contents : list Init.Byte.byte)
    (pixels_per_metre_arg : option num) (floor_height : num) (use_sam : bool)
    (building_name : string) :
  imdecode env contents = None ->
  analyze_floorplan env contents pixels_per_metre_arg floor_height use_sam
    building_name []
  = (Raise (HTTPException 400 "Invalid image file"),
     [ Print ("[ANALYZE] Request received - use_sam=" ++ str_bool use_sam
              ++ ", SAM_AVAILABLE=" ++ str_bool (SAM_AVAILABLE env));
       Mkdir (job_dir_of env);
       Print "[ANALYZE] Reading uploaded file...";
       Print ("[ANALYZE] File read: " ++ str_nat (length contents) ++ " bytes") ]).
Proof.
  intros Himg.
  unfold analyze_floorplan, analyze_body, try_except, bind, emit, raise. simpl.
  rewrite Himg. reflexivity.
Qed.

(** X13: a scale of zero is a server error.  When rooms were detected and
    the scale in use is zero, the first division raises
    [ZeroDivisionError] and the request ends with
    [HTTPException(500, "float division by zero")]. *)
Theorem zero_scale_is_a_server_error (contents : list Init.Byte.byte)
    (pixels_per_metre_arg : option num) (floor_height : num) (use_sam : bool)
    (building_name : string) (image : Image) (ppm : num) (scale_info : pyval)
    (r : PixelRoom) (rs : list PixelRoom) (fy : num) :
  imdecode env contents = Some image ->
  fst (scale_stage env (cvtColor env image) pixels_per_metre_arg [])
    = Ok (ppm, scale_info) ->
  is_zero ppm = true ->
  fst (detect_stage env image (cvtColor env image) use_sam (job_dir_of env) [])
    = Ok (r :: rs) ->
  of_int (fst (shape (cvtColor env image)) - py r - ph r) = Ok fy ->
  fst (analyze_floorplan env contents pixels_per_metre_arg floor_height use_sam
         building_name [])
  = Raise (HTTPException 500 "float division by zero").
Proof.
  intros Himg Hscale Hzero Hdetect Hconv.
  unfold analyze_floorplan, analyze_body, try_except, bind, emit. simpl.
  rewrite Himg.
  match goal with
  | |- context [scale_stage env ?g ?a ?t] =>
      pose proof (scale_stage_fst env g a t) as Hs;
      destruct (scale_stage env g a t) as [[[ppm' info']|e] tr1]
  end; simpl in Hs; rewrite Hscale in Hs; [|discriminate].
  injection Hs as <- <-.
  match goal with
  | |- context [detect_stage env ?i ?g ?u ?d ?t] =>
      pose proof (detect_stage_fst env i g u d t) as Hd;
      destruct (detect_stage env i g u d t) as [[rooms_px|e] tr2]
  end; simpl in Hd; rewrite Hdetect in Hd; [|discriminate].
  injection Hd as ->.
  unfold lift, project_all. simpl.
  unfold project at 1, int_truediv, truediv. simpl in Hconv. rewrite Hconv.
  simpl. rewrite Hzero. reflexivity.
Qed.

(** X14: a scale given by the caller is used as it is: the scale
    calibrator is not called and the scale record says "user_provided";
    without one, a request whose upload decodes calls the calibrator. *)
Theorem caller_scale_skips_calibration (contents : list Init.Byte.byte)
    (floor_height : num) (use_sam : bool) (building_name : string) :
  (forall ppm,
      ~ In CallDetectScale
          (snd (analyze_floorplan env contents (Some ppm) floor_height use_sam
                  building_name [])) /\
      forall gray tr,
        scale_stage env gray (Some ppm) tr
        = (Ok (ppm, PDict [ ("detected", PStr "user_provided");
                            ("pixels_per_metre", PFloat ppm);
                            ("confidence", PStr "user") ]), tr)) /\
  (forall image,
      imdecode env contents = Some image ->
      In CallDetectScale
        (snd (analyze_floorplan env contents None floor_height use_sam
                building_name []))).
Proof.
  split.
  - intros ppm. split; [|reflexivity].
    run_request; intros Hin; simpl in Hin; intuition discriminate.
  - intros image Himg.
    run_request; try discriminate; simpl; tauto.
Qed.

(** X15: a request that succeeds leaves its files in this order: the
    input image, the gbXML document, the OBJ mesh, the preview image and,
    last, [result.json], whose content is the very record the request
    returns. *)
Theorem successful_request_files (contents : list Init.Byte.byte)
    (pixels_per_metre_arg : option num) (floor_height : num) (use_sam : bool)
    (building_name : string) (result : pyval) (events : Trace) :
  analyze_floorplan env contents pixels_per_metre_arg floor_height use_sam
    building_name [] = (Ok result, events) ->
  exists spaces,
    List.filter writes_file events =
    [ ImWrite (job_dir_of env ++ "/input.png");
      GbxmlSave (job_dir_of env ++ "/floorplan.xml") building_name spaces;
      ExportObj (job_dir_of env ++ "/floorplan.obj");
      ImWrite (job_dir_of env ++ "/preview.png");
      WriteText (job_dir_of env ++ "/result.json") result ].
Proof.
  run_request; intros [= <- <-]; eexists; reflexivity.
Qed.

Lemma append_cancel_l (a s t : string) : a ++ s = a ++ t -> s = t.
Proof. induction a as [|c a IH]; simpl; [auto | intros [= H]; auto]. Qed.

(** X16: after a request that succeeded, [GET /result/{job_id}] with the
    job identifier of that request returns the record the request
    returned. *)
Theorem get_result_returns_what_was_returned (contents : list Init.Byte.byte)
    (pixels_per_metre_arg : option num) (floor_height : num) (use_sam : bool)
    (building_name : string) (result : pyval) (events : Trace)
    (fs : gmap string Service.FileBody) :
  analyze_floorplan env contents pixels_per_metre_arg floor_height use_sam
    building_name [] = (Ok result, events) ->
  Service.get_result (RESULTS_DIR env) (Service.files_after events fs)
    (job_id_of env) = Ok result.
Proof.
  run_request; intros [= <- <-];
    unfold Service.get_result, Service.files_after; cbn [fold_left Service.written];
    change (RESULTS_DIR env ++ "/" ++ job_id_of env) with (job_dir_of env);
    now rewrite lookup_insert_eq.
Qed.

(** X17: [result.json] is written by the last step of a request and by no
    other.  A request whose trace has no write of its [result.json] leaves
    that file as it was: whatever [GET /result/{job_id}] answered for its
    job identifier before -- 404 for a fresh one -- it answers after.  A
    request that fails at any step before the last (decoding returned
    [None], or scale detection, room detection, conversion to metres or an
    exporter raised, or no room was found) is such a request; these are
    all the failures of the handler as embedded here, where the write
    itself is taken to succeed. *)
Theorem failed_request_leaves_no_result (contents : list Init.Byte.byte)
    (pixels_per_metre_arg : option num) (floor_height : num) (use_sam : bool)
    (building_name : string) (out : result pyval) (events : Trace)
    (fs : gmap string Service.FileBody) :
  analyze_floorplan env contents pixels_per_metre_arg floor_height use_sam
    building_name [] = (out, events) ->
  ((forall doc, ~ In (WriteText (job_dir_of env ++ "/result.json") doc) events) ->
   Service.get_result (RESULTS_DIR env) (Service.files_after events fs)
     (job_id_of env)
   = Service.get_result (RESULTS_DIR env) fs (job_id_of env)) /\
  (forall e, out = Raise e ->
     (forall path doc, ~ In (WriteText path doc) events) /\
     Service.get_result (RESULTS_DIR env) (Service.files_after events fs)
       (job_id_of env)
     = Service.get_result (RESULTS_DIR env) fs (job_id_of env)).
Proof.
  assert (Hne : job_dir_of env ++ "/input.png" <> job_dir_of env ++ "/result.json").
  { intros H. apply append_cancel_l in H. discriminate. }
  run_request; intros [= <- <-];
    (split;
     [ intros Hno
     | intros e0 He;
       first [ discriminate He
             | split; [intros path doc Hin; simpl in Hin; intuition discriminate|] ] ]);
    try (unfold Service.get_result, Service.files_after;
         cbn [fold_left Service.written];
         change (RESULTS_DIR env ++ "/" ++ job_id_of env) with (job_dir_of env);
         rewrite ?lookup_insert_ne by exact Hne; reflexivity);
    exfalso; eapply Hno; simpl; repeat (first [left; reflexivity | right]).
Qed.

End HandlerMore.

(** Worked instance of X11. *)
Lemma undecodable_upload_is_rejected_witness :
  fst (Main.analyze_floorplan Cases.undecodable Fixtures.upload None 3%Q true
         "Building" [])
  = Raise (HTTPException 400 "Invalid image file").
Proof.
  rewrite (undecodable_upload_is_rejected Cases.undecodable Fixtures.upload None
             3%Q true "Building" eq_refl).
  reflexivity.
Defined.

(** Worked instance of X13: the caller passes a scale of zero. *)
Lemma zero_scale_is_a_server_error_witness :
  fst (Main.analyze_floorplan Fixtures.hybrid_finds_one Fixtures.upload (Some 0%Q)
         3%Q true "Building" [])
  = Raise (HTTPException 500 "float division by zero").
Proof.
  eapply (zero_scale_is_a_server_error Fixtures.hybrid_finds_one Fixtures.upload
            (Some 0%Q) 3%Q true "Building" Fixtures.decoded 0%Q _
            Fixtures.scenario3 []);
    vm_compute; reflexivity.
Defined.

(** Worked instance of X14: no scale given, the calibrator is called. *)
Lemma caller_scale_skips_calibration_witness :
  In Main.CallDetectScale
    (snd (Main.analyze_floorplan Fixtures.hybrid_finds_one Fixtures.upload None
            3%Q true "Building" [])).
Proof.
  apply (proj2 (caller_scale_skips_calibration Fixtures.hybrid_finds_one
                  Fixtures.upload 3%Q true "Building") Fixtures.decoded).
  reflexivity.
Defined.

(** Worked instances of X15 and X16: the request served by the hybrid
    detector, and the lookup of its result afterwards. *)
Lemma successful_request_files_witness :
  exists result events spaces,
    Main.analyze_floorplan Fixtures.hybrid_finds_one Fixtures.upload None 3%Q true
      "Building" [] = (Ok result, events) /\
    List.filter writes_file events =
    [ Main.ImWrite "/tmp/gem-ai-results/0f8fad5b/input.png";
      Main.GbxmlSave "/tmp/gem-ai-results/0f8fad5b/floorplan.xml" "Building" spaces;
      Main.ExportObj "/tmp/gem-ai-results/0f8fad5b/floorplan.obj";
      Main.ImWrite "/tmp/gem-ai-results/0f8fad5b/preview.png";
      Main.WriteText "/tmp/gem-ai-results/0f8fad5b/result.json" result ].
Proof.
  assert (Hrun : exists result events,
             Main.analyze_floorplan Fixtures.hybrid_finds_one Fixtures.upload None
               3%Q true "Building" [] = (Ok result, events))
    by (do 2 eexists; vm_compute; reflexivity).
  destruct Hrun as (result & events & Hrun).
  destruct (successful_request_files Fixtures.hybrid_finds_one Fixtures.upload
              None 3%Q true "Building" result events Hrun) as [spaces Hfiles].
  exists result, events, spaces. split; [exact Hrun | exact Hfiles].
Defined.

Lemma get_result_returns_what_was_returned_witness :
  exists result events,
    Main.analyze_floorplan Fixtures.hybrid_finds_one Fixtures.upload None 3%Q true
      "Building" [] = (Ok result, events) /\
    Service.get_result "/tmp/gem-ai-results" (Service.files_after events ∅)
      "0f8fad5b" = Ok result.
Proof.
  assert (Hrun : exists result events,
             Main.analyze_floorplan Fixtures.hybrid_finds_one Fixtures.upload None
               3%Q true "Building" [] = (Ok result, events))
    by (do 2 eexists; vm_compute; reflexivity).
  destruct Hrun as (result & events & Hrun).
  exists result, events. split; [exact Hrun|].
  exact (get_result_returns_what_was_returned Fixtures.hybrid_finds_one
           Fixtures.upload None 3%Q true "Building" result events ∅ Hrun).
Defined.

(** Worked instance of X17: no room found, no result to fetch. *)
Lemma failed_request_leaves_no_result_witness :
  exists events,
    Main.analyze_floorplan Fixtures.nothing_found Fixtures.upload (Some 100%Q) 3%Q
      true "Building" []
    = (Raise (HTTPException 422 "No rooms detected in image"), events) /\
    Service.get_result "/tmp/gem-ai-results" (Service.files_after events ∅)
      "0f8fad5b" = Raise (HTTPException 404 "Job not found").
Proof.
  assert (Hrun : exists events,
             Main.analyze_floorplan Fixtures.nothing_found Fixtures.upload
               (Some 100%Q) 3%Q true "Building" []
             = (Raise (HTTPException 422 "No rooms detected in image"), events))
    by (eexists; vm_compute; reflexivity).
  destruct Hrun as (events & Hrun).
  exists events. split; [exact Hrun|].
  rewrite (proj2 (proj2 (failed_request_leaves_no_result Fixtures.nothing_found
                           Fixtures.upload (Some 100%Q) 3%Q true "Building" _
                           events ∅ Hrun) _ eq_refl)).
  reflexivity.
Defined.

(* ===================================================================== *)
(** * Further properties of the export                                   *)
(* ===================================================================== *)

Section RoomType.
Import Main.

Lemma flt_iff_lt (a b : Q) : flt (F:=QFloat) a b = true <-> (a < b)%Q.
Proof.
  simpl. split.
  - intros H. apply Qnot_le_lt. intros Hle. apply Qle_bool_iff in Hle.
    rewrite Hle in H. discriminate.
  - intros H. destruct (Qle_bool b a) eqn:E; [|reflexivity].
    apply Qle_bool_iff in E. exfalso. now apply (Qlt_not_le a b).
Qed.

Lemma flt_compat (a a' b b' : Q) :
  (a == a')%Q -> (b == b')%Q -> flt (F:=QFloat) a b = flt (F:=QFloat) a' b'.
Proof.
  intros Ha Hb.
  destruct (flt (F:=QFloat) a b) eqn:E, (flt (F:=QFloat) a' b') eqn:E';
    try reflexivity.
  - apply flt_iff_lt in E. rewrite Ha, Hb in E. apply flt_iff_lt in E. congruence.
  - apply flt_iff_lt in E'. rewrite <- Ha, <- Hb in E'. apply flt_iff_lt in E'.
    congruence.
Qed.

Lemma py_max_compat (a a' b b' : Q) :
  (a == a')%Q -> (b == b')%Q ->
  (py_max (F:=QFloat) a b == py_max (F:=QFloat) a' b')%Q.
Proof.
  intros Ha Hb. unfold py_max. rewrite (flt_compat a a' b b' Ha Hb).
  now destruct (flt (F:=QFloat) a' b').
Qed.

Lemma py_max_swap (a b : Q) :
  (py_max (F:=QFloat) a b == py_max (F:=QFloat) b a)%Q.
Proof.
  unfold py_max.
  destruct (flt (F:=QFloat) a b) eqn:E, (flt (F:=QFloat) b a) eqn:E';
    try reflexivity.
  - apply flt_iff_lt in E. apply flt_iff_lt in E'.
    exfalso. apply (Qlt_irrefl a). eapply Qlt_trans; eassumption.
  - apply Qle_antisym; apply Qnot_lt_le; intros H; apply flt_iff_lt in H;
      congruence.
Qed.

Lemma py_min_swap (a b : Q) :
  (py_min (F:=QFloat) a b == py_min (F:=QFloat) b a)%Q.
Proof.
  unfold py_min.
  destruct (flt (F:=QFloat) b a) eqn:E, (flt (F:=QFloat) a b) eqn:E';
    try reflexivity.
  - apply flt_iff_lt in E. apply flt_iff_lt in E'.
    exfalso. apply (Qlt_irrefl a). eapply Qlt_trans; eassumption.
  - apply Qle_antisym; apply Qnot_lt_le; intros H; apply flt_iff_lt in H;
      congruence.
Qed.

(** The divisor [max(0.1, min(width, height))] is positive. *)
Lemma shorter_positive (room : MetricRoom (F:=QFloat)) : (0 < shorter room)%Q.
Proof.
  unfold shorter, py_max.
  destruct (flt (F:=QFloat) (literal (F:=QFloat) 1 (-1)) _) eqn:E.
  - apply flt_iff_lt in E. eapply Qlt_trans; [|exact E]. reflexivity.
  - reflexivity.
Qed.

Lemma room_type_exact (room : MetricRoom (F:=QFloat)) :
  room_type room =
  Ok (if flt (F:=QFloat) (literal (F:=QFloat) 5 0) (longer room / shorter room)%Q
      then "Corridor"
      else if flt (F:=QFloat) (literal (F:=QFloat) 3 0) (longer room / shorter room)%Q
           then "Circulation"
           else "Room").
Proof.
  unfold room_type, truediv.
  assert (Hz : is_zero (PyFloat:=QFloat) (shorter room) = false).
  { apply Q_positive_not_zero, shorter_positive. }
  unfold shorter in Hz. rewrite Hz. reflexivity.
Qed.

(** X20: in exact arithmetic the label of a room never fails to compute
    (the divisor is at least 0.1) and does not depend on which side is
    called width and which height. *)
Theorem room_type_is_symmetric (room : MetricRoom (F:=QFloat)) :
  exists label,
    room_type room = Ok label /\
    room_type {| mx := mx room; my := my room; width := height room;
                 height := width room; area_m2 := area_m2 room |} = Ok label.
Proof.
  rewrite !room_type_exact. eexists. split; [reflexivity|].
  set (swapped := {| mx := mx room; my := my room; width := height room;
                     height := width room; area_m2 := area_m2 room |}).
  assert (Hasp : (longer swapped / shorter swapped == longer room / shorter room)%Q).
  { assert (Hm : (shorter swapped == shorter room)%Q)
      by (apply py_max_compat; [reflexivity | apply py_min_swap]).
    assert (HM : (longer swapped == longer room)%Q) by apply py_max_swap.
    rewrite Hm, HM. reflexivity. }
  rewrite (flt_compat (literal (F:=QFloat) 5 0) (literal (F:=QFloat) 5 0) _ _
             (Qeq_refl _) Hasp).
  rewrite (flt_compat (literal (F:=QFloat) 3 0) (literal (F:=QFloat) 3 0) _ _
             (Qeq_refl _) Hasp).
  reflexivity.
Qed.

End RoomType.

Section GbxmlExport.
Import Main.
Context {F : PyFloat} {O : PyFloatOrd F}.

Lemma add_space_numbering (floor_height : num) (rooms_m : list MetricRoom)
    (acc : list Space) (i : nat) (out : list Space * nat) :
  rfor_each (add_space floor_height) rooms_m (acc, i) = Ok out ->
  exists spaces,
    fst out = (acc ++ spaces)%list /\
    length spaces = length rooms_m /\
    forall j room,
      rooms_m !! j = Some room ->
      exists sp label,
        spaces !! j = Some sp /\
        room_type room = Ok label /\
        space_id sp = "space-" ++ fmt_03d (i + j) /\
        name sp = label ++ "_" ++ fmt_03d (i + j) /\
        sx sp = mx room /\ sy sp = my room /\ sz sp = literal 0 0 /\
        swidth sp = width room /\ sdepth sp = height room /\
        sheight sp = floor_height.
Proof.
  revert acc i. induction rooms_m as [|room rest IH]; intros acc i; simpl.
  - intros [= <-]. exists []. split; [now rewrite app_nil_r|].
    split; [reflexivity|]. intros j r Hj. now rewrite lookup_nil in Hj.
  - destruct (room_type room) as [label|e] eqn:Hlabel; simpl; [|discriminate].
    intros Hrest. apply IH in Hrest as (spaces & -> & Hlen & Hall).
    eexists (_ :: spaces). split; [now rewrite <- app_assoc|].
    split; [simpl; now rewrite Hlen|].
    intros [|j] r Hj; simpl in Hj.
    + injection Hj as <-. do 2 eexists. split; [reflexivity|].
      rewrite Nat.add_0_r. simpl. repeat split; auto.
    + destruct (Hall j r Hj) as (sp & l & Hsp & Hrest).
      exists sp, l. split; [exact Hsp|].
      replace (i + S j)%nat with (S i + j)%nat by lia. exact Hrest.
Qed.

(** X22: the gbXML export has one space per room, in the order of the
    room list, numbered from 1: the j-th room (counting from 0) becomes
    the space "space-<j+1>", named "<label>_<j+1>" with the same
    zero-padded number, placed at the room's metric x and y on the ground
    (z = 0), as wide and deep as the room is wide and high, and as tall as
    the floor height. *)
Theorem gbxml_spaces_are_numbered (floor_height : num)
    (rooms_m : list MetricRoom) (spaces : list Space) :
  gbxml_spaces floor_height rooms_m = Ok spaces ->
  length spaces = length rooms_m /\
  forall j room,
    rooms_m !! j = Some room ->
    exists sp label,
      spaces !! j = Some sp /\
      room_type room = Ok label /\
      space_id sp = "space-" ++ fmt_03d (S j) /\
      name sp = label ++ "_" ++ fmt_03d (S j) /\
      sx sp = mx room /\ sy sp = my room /\ sz sp = literal 0 0 /\
      swidth sp = width room /\ sdepth sp = height room /\
      sheight sp = floor_height.
Proof.
  unfold gbxml_spaces.
  destruct (rfor_each (add_space floor_height) rooms_m ([], 1%nat))
    as [out|e] eqn:Hloop; simpl; [|discriminate].
  intros [= <-].
  apply add_space_numbering in Hloop as (sps & -> & Hlen & Hall).
  simpl. split; [exact Hlen|]. exact Hall.
Qed.

End GbxmlExport.

(** Worked instance of X22: two rooms, a corridor and a room. *)
Lemma gbxml_spaces_are_numbered_witness :
  exists spaces,
    Main.gbxml_spaces (F:=QFloat) 3%Q
      [ Main.Build_MetricRoom (F:=QFloat) 0%Q 0%Q 1%Q 6%Q 6%Q;
        Main.Build_MetricRoom (F:=QFloat) 1%Q 0%Q 2%Q 2%Q 4%Q ] = Ok spaces /\
    map Main.space_id spaces = ["space-001"; "space-002"] /\
    map Main.name spaces = ["Corridor_001"; "Room_002"] /\
    length spaces = 2%nat.
Proof.
  eexists. split; [vm_compute; reflexivity|].
  split; [reflexivity|]. split; [reflexivity|].
  apply (gbxml_spaces_are_numbered (F:=QFloat) 3%Q
           [ Main.Build_MetricRoom (F:=QFloat) 0%Q 0%Q 1%Q 6%Q 6%Q;
             Main.Build_MetricRoom (F:=QFloat) 1%Q 0%Q 2%Q 2%Q 4%Q ]).
  vm_compute; reflexivity.
Defined.

Section StartupFacts.
Variable sam_available : bool.
Variable load_sam_model : string -> result unit.

(** X23: the startup hook never raises, so a model that cannot be loaded
    does not keep the server from starting.  It tries to load the "vit_b"
    model only when SAM is available, and its last line tells which of the
    three things happened: loaded, failed (with the error), or skipped. *)
Theorem preload_never_raises (out : list string) :
  exists lines,
    Service.preload_sam_model sam_available load_sam_model out
      = (Ok tt, (out ++ lines)%list) /\
    (sam_available = false ->
       lines = [ "[STARTUP] SAM_AVAILABLE=False";
                 "[STARTUP] SAM not available, skipping preload" ]) /\
    (sam_available = true -> load_sam_model "vit_b" = Ok tt ->
       lines = [ "[STARTUP] SAM_AVAILABLE=True";
                 "[STARTUP] Preloading SAM model...";
                 "[STARTUP] SAM model loaded successfully!" ]) /\
    (forall e, sam_available = true -> load_sam_model "vit_b" = Raise e ->
       lines = [ "[STARTUP] SAM_AVAILABLE=True";
                 "[STARTUP] Preloading SAM model...";
                 ("[STARTUP] Failed to preload SAM model: " ++ exn_str e)%string ]).
Proof.
  unfold Service.preload_sam_model, try_except, bind, Service.say, lift.
  destruct sam_available; simpl.
  - destruct (load_sam_model "vit_b") as [[]|e]; simpl.
    + eexists. split; [rewrite <- !app_assoc; simpl; reflexivity|].
      split; [discriminate|]. split; [reflexivity|]. discriminate.
    + eexists. split; [rewrite <- !app_assoc; simpl; reflexivity|].
      split; [discriminate|]. split; [discriminate|].
      now intros e' _ [= <-].
  - eexists. split; [rewrite <- !app_assoc; simpl; reflexivity|].
    split; [reflexivity|]. split; discriminate.
Qed.

End StartupFacts.

Section DetectorFailure.
Import Main.
Context {F : PyFloat} {O : PyFloatOrd F}.
Variable env : Collaborators.

(** X24: the handler falls back on an empty answer only.  When the call of
    the trained-model strategy itself raises, the hybrid detector is not
    tried: the request ends with [HTTPException(500, str(e))] and nothing
    is written after the input image. *)
Theorem primary_exception_ends_the_request (contents : list Init.Byte.byte)
    (pixels_per_metre_arg : option num) (floor_height : num) (use_sam : bool)
    (building_name : string) (image : Image) (kind msg : string) :
  imdecode env contents = Some image ->
  (pixels_per_metre_arg = None ->
   exists s, detect_scale env (cvtColor env image) = Ok s) ->
  detect_rooms_advanced env image (cvtColor env image) "floorplan"
    (use_sam && SAM_AVAILABLE env) (job_dir_of env) = Raise (Exception kind msg) ->
  exists events,
    analyze_floorplan env contents pixels_per_metre_arg floor_height use_sam
      building_name [] = (Raise (HTTPException 500 msg), events) /\
    (forall f d, ~ In (CallDetectRooms f d) events) /\
    List.filter writes_file events = [ImWrite (job_dir_of env ++ "/input.png")].
Proof.
  intros Himg Hscale Hprimary.
  destruct pixels_per_metre_arg as [ppm|].
  - cbv beta iota zeta delta
      [analyze_floorplan analyze_body scale_stage detect_stage try_except bind
       emit lift ret raise].
    simpl. rewrite Himg. simpl. rewrite Hprimary. simpl.
    eexists. split; [reflexivity|]. split; [|reflexivity].
    intros f d Hin. simpl in Hin. intuition discriminate.
  - destruct (Hscale eq_refl) as [s Hs].
    cbv beta iota zeta delta
      [analyze_floorplan analyze_body scale_stage detect_stage try_except bind
       emit lift ret raise].
    simpl. rewrite Himg. simpl. rewrite Hs. simpl. rewrite Hprimary. simpl.
    eexists. split; [reflexivity|]. split; [|reflexivity].
    intros f d Hin. simpl in Hin. intuition discriminate.
Qed.

End DetectorFailure.

(** Worked instance of X24. *)
Lemma primary_exception_ends_the_request_witness :
  fst (Main.analyze_floorplan Cases.primary_raises Fixtures.upload (Some 100%Q)
         3%Q true "Building" [])
  = Raise (HTTPException 500 "unknown method").
Proof.
  destruct (primary_exception_ends_the_request Cases.primary_raises
              Fixtures.upload (Some 100%Q) 3%Q true "Building" Fixtures.decoded
              "ValueError" "unknown method")
    as (events & -> & _).
  - reflexivity.
  - discriminate.
  - reflexivity.
  - reflexivity.
Defined.
